(** * Pump-relay notifier: the debounce logic of [olis-iot-notifier.ino]

    A shallow embedding of the Arduino sketch for the ESP8266 (Wemos D1
    Mini).  The sketch keeps its whole state in global variables, talks to
    the outside through the serial port, the built-in LED, the WiFi stack and
    an HTTP GET to the webhook service, and reads the outside through
    [digitalRead], [millis] and the status codes those calls return.

    The globals become one record, every function of the sketch becomes a
    computation in a state-and-output monad, and everything the sketch reads
    during one pass of [loop] is gathered in a [cycle_input] record, one field
    per place of the source that reads it. *)

From Stdlib Require Import ZArith List String Bool Lia.
Import ListNotations.

Local Open Scope string_scope.
Local Open Scope list_scope.
Local Open Scope Z_scope.

(** ** Machine integers

    [unsigned long] is 32 bits wide on the ESP8266; [millis()] returns one.
    A clock reading is given to the model as the number of milliseconds since
    boot (any integer), and the program sees it modulo [2^32]. *)

Definition ulong_bits : Z := 32.
Definition ulong_modulus : Z := 2 ^ ulong_bits.

Definition wrap (z : Z) : Z := z mod ulong_modulus.

(** [a - b] on [unsigned long]. *)
Definition usub (a b : Z) : Z := wrap (a - b).

Definition LOW : Z := 0.
Definition HIGH : Z := 1.

(** ** Global variables (lines 29-60) *)

Record globals : Type := mkGlobals {
  led_state : Z;
  current_led_millis : Z;
  previous_led_millis : Z;
  response : Z;
  last_state : bool;
  new_state : bool;
  ton_start_marker : Z;
  tof_start_marker : Z;
  TON_running : bool;
  TOF_running : bool;
  approved_alarm_state : bool
}.

(** The three interval globals are initialised and never assigned. *)
Definition led_interval : Z := 100.
Definition ton_threshold : Z := 1800.
Definition tof_threshold : Z := 1600.

Definition deviceName : string := "Pump_Notifier".

(** The values the globals have when [setup] starts: the initialisers of the
    source, and zero for the globals that have none. *)
Definition initial_globals : globals :=
  {| led_state := LOW;
     current_led_millis := 0;
     previous_led_millis := 0;
     response := 0;
     last_state := false;
     new_state := false;
     ton_start_marker := 0;
     tof_start_marker := 0;
     TON_running := false;
     TOF_running := false;
     approved_alarm_state := false |}.

Definition set_led_state (v : Z) (g : globals) : globals :=
  mkGlobals v (current_led_millis g) (previous_led_millis g) (response g)
    (last_state g) (new_state g) (ton_start_marker g) (tof_start_marker g)
    (TON_running g) (TOF_running g) (approved_alarm_state g).

Definition set_current_led_millis (v : Z) (g : globals) : globals :=
  mkGlobals (led_state g) v (previous_led_millis g) (response g)
    (last_state g) (new_state g) (ton_start_marker g) (tof_start_marker g)
    (TON_running g) (TOF_running g) (approved_alarm_state g).

Definition set_previous_led_millis (v : Z) (g : globals) : globals :=
  mkGlobals (led_state g) (current_led_millis g) v (response g)
    (last_state g) (new_state g) (ton_start_marker g) (tof_start_marker g)
    (TON_running g) (TOF_running g) (approved_alarm_state g).

Definition set_response (v : Z) (g : globals) : globals :=
  mkGlobals (led_state g) (current_led_millis g) (previous_led_millis g) v
    (last_state g) (new_state g) (ton_start_marker g) (tof_start_marker g)
    (TON_running g) (TOF_running g) (approved_alarm_state g).

Definition set_last_state (v : bool) (g : globals) : globals :=
  mkGlobals (led_state g) (current_led_millis g) (previous_led_millis g)
    (response g) v (new_state g) (ton_start_marker g) (tof_start_marker g)
    (TON_running g) (TOF_running g) (approved_alarm_state g).

Definition set_new_state (v : bool) (g : globals) : globals :=
  mkGlobals (led_state g) (current_led_millis g) (previous_led_millis g)
    (response g) (last_state g) v (ton_start_marker g) (tof_start_marker g)
    (TON_running g) (TOF_running g) (approved_alarm_state g).

Definition set_ton_start_marker (v : Z) (g : globals) : globals :=
  mkGlobals (led_state g) (current_led_millis g) (previous_led_millis g)
    (response g) (last_state g) (new_state g) v (tof_start_marker g)
    (TON_running g) (TOF_running g) (approved_alarm_state g).

Definition set_tof_start_marker (v : Z) (g : globals) : globals :=
  mkGlobals (led_state g) (current_led_millis g) (previous_led_millis g)
    (response g) (last_state g) (new_state g) (ton_start_marker g) v
    (TON_running g) (TOF_running g) (approved_alarm_state g).

Definition set_TON_running (v : bool) (g : globals) : globals :=
  mkGlobals (led_state g) (current_led_millis g) (previous_led_millis g)
    (response g) (last_state g) (new_state g) (ton_start_marker g)
    (tof_start_marker g) v (TOF_running g) (approved_alarm_state g).

Definition set_TOF_running (v : bool) (g : globals) : globals :=
  mkGlobals (led_state g) (current_led_millis g) (previous_led_millis g)
    (response g) (last_state g) (new_state g) (ton_start_marker g)
    (tof_start_marker g) (TON_running g) v (approved_alarm_state g).

Definition set_approved_alarm_state (v : bool) (g : globals) : globals :=
  mkGlobals (led_state g) (current_led_millis g) (previous_led_millis g)
    (response g) (last_state g) (new_state g) (ton_start_marker g)
    (tof_start_marker g) (TON_running g) (TOF_running g) v.

(** ** What the sketch does to the outside *)

Inductive effect : Type :=
| Print (s : string)            (* Serial.print of a text *)
| Println (s : string)          (* Serial.println of a text *)
| PrintNum (n : Z)              (* Serial.print of an unsigned long *)
| PrintInfo (what : string)     (* Serial.println of a value the WiFi stack supplies *)
| HttpGet (value1 : string)     (* the GET of webhookTrigger, by its value1 *)
| LedWrite (level : Z)          (* digitalWrite(LED_BUILTIN, level) *)
| Delay (ms : Z)                (* delay(ms) *)
| Call (name : string).         (* a call into the board, WiFi or OTA library *)

(** ** The monad: global state, and the effects in the order they happen *)

Definition M (A : Type) : Type := globals -> A * globals * list effect.

Definition ret {A : Type} (a : A) : M A := fun g => (a, g, []).

Definition bind {A B : Type} (m : M A) (k : A -> M B) : M B :=
  fun g =>
    let '(a, g1, o1) := m g in
    let '(b, g2, o2) := k a g1 in
    (b, g2, o1 ++ o2).

Declare Scope sketch_scope.
Delimit Scope sketch_scope with sketch.
Notation "x <- m ;; k" := (bind m (fun x => k))
  (at level 61, m at next level, right associativity) : sketch_scope.
Notation "m ;; k" := (bind m (fun _ => k))
  (at level 61, right associativity) : sketch_scope.
Local Open Scope sketch_scope.

Definition gets {A : Type} (f : globals -> A) : M A := fun g => (f g, g, []).
Definition assign (f : globals -> globals) : M unit := fun g => (tt, f g, []).
Definition emit (e : effect) : M unit := fun g => (tt, g, [e]).

(** An [if] of the source without [else]. *)
Definition when (c : bool) (body : M unit) : M unit :=
  if c then body else ret tt.

Definition exec {A : Type} (m : M A) (g : globals) : globals := snd (fst (m g)).
Definition trace {A : Type} (m : M A) (g : globals) : list effect := snd (m g).

(** ** Library calls *)

Definition Serial_print (s : string) : M unit := emit (Print s).
Definition Serial_println (s : string) : M unit := emit (Println s).
Definition Serial_print_num (n : Z) : M unit := emit (PrintNum n).
Definition delay (ms : Z) : M unit := emit (Delay ms).
Definition digitalWrite_LED_BUILTIN (level : Z) : M unit := emit (LedWrite level).

(** [millis()]: the reading [t] of this call, as an [unsigned long]. *)
Definition millis (t : Z) : M Z := ret (wrap t).

(** [digitalRead(MONITORED_INPUT)] converted to [bool]. *)
Definition digitalRead_MONITORED_INPUT (level : bool) : M bool := ret level.

(** [webhookTrigger] (lines 285-292): one GET, whose status code is returned.
    The event name and the key of the URL come from [secrets.h]; the request
    is identified by its [value1]. *)
Definition webhookTrigger (value : string) (httpCode : Z) : M Z :=
  emit (HttpGet value) ;; ret httpCode.

(** The recurring pair of lines
    [if(response == 200) Serial.println(ok); else Serial.println("Failed");] *)
Definition report_response (ok : string) : M unit :=
  r <- gets response ;;
  if r =? 200 then Serial_println ok else Serial_println "Failed".

(** ** [connect_to_wifi] (lines 184-227)

    [polls] is the number of times the inner [while] finds the station not
    yet connected; [httpCode] is the status of the notification sent at the
    end. *)

Fixpoint wait_for_wifi (polls : nat) : M unit :=
  match polls with
  | O => ret tt
  | S n => delay 500 ;; Serial_print "*" ;; wait_for_wifi n
  end.

Definition connect_to_wifi (polls : nat) (httpCode : Z) : M unit :=
  digitalWrite_LED_BUILTIN LOW ;;
  emit (Call "WiFi.mode") ;;
  emit (Call "WiFi.disconnect") ;;
  delay 1000 ;;
  Serial_println EmptyString ;;
  Serial_print "Device name: " ;;
  Serial_println deviceName ;;
  emit (Call "WiFi.hostname") ;;
  Serial_print "Connecting to: " ;;
  emit (PrintInfo "_SSID_") ;;
  emit (Call "WiFi.begin") ;;
  wait_for_wifi polls ;;
  digitalWrite_LED_BUILTIN HIGH ;;
  Serial_println EmptyString ;;
  Serial_println "WiFi Connected" ;;
  Serial_print "IP assigned by DHCP: " ;;
  emit (PrintInfo "WiFi.localIP") ;;
  Serial_print "ESP Board MAC Address: " ;;
  emit (PrintInfo "WiFi.macAddress") ;;
  Serial_print "Current RSSI: " ;;
  emit (PrintInfo "WiFi.RSSI") ;;
  r <- webhookTrigger "Pump-relay_connected_to_WiFi!" httpCode ;;
  assign (set_response r) ;;
  report_response "Webhook OK for Pump-relay_connected_to_WiFi!".

(** ** [toggle_inbuilt_led_fast] (lines 229-245) *)

Definition toggle_inbuilt_led_fast (t_led : Z) : M unit :=
  (a <- gets approved_alarm_state ;;
   when (Bool.eqb a true)
     (now <- millis t_led ;;
      assign (set_current_led_millis now) ;;
      c <- gets current_led_millis ;;
      p <- gets previous_led_millis ;;
      when (led_interval <=? usub c p)
        (c' <- gets current_led_millis ;;
         assign (set_previous_led_millis c') ;;
         l <- gets led_state ;;
         if l =? LOW then assign (set_led_state HIGH)
         else assign (set_led_state LOW)))) ;;
  (a <- gets approved_alarm_state ;;
   when (Bool.eqb a false) (assign (set_led_state HIGH))) ;;
  l <- gets led_state ;;
  digitalWrite_LED_BUILTIN l.

(** ** [ota_setup] (lines 247-283): registers callbacks, touches no global. *)

Definition ota_setup : M unit :=
  emit (Call "ArduinoOTA.setHostname") ;;
  emit (Call "ArduinoOTA.setPassword") ;;
  emit (Call "ArduinoOTA.onStart") ;;
  emit (Call "ArduinoOTA.onEnd") ;;
  emit (Call "ArduinoOTA.onProgress") ;;
  emit (Call "ArduinoOTA.onError") ;;
  emit (Call "ArduinoOTA.begin").

(** ** [setup] (lines 64-90) *)

Record boot_input : Type := mkBoot {
  boot_polls : nat;      (* polls of the connection loop of line 201 *)
  boot_wifi_http : Z;    (* status of the GET of line 224 *)
  boot_raw : bool;       (* digitalRead of line 81 *)
  boot_http : Z          (* status of the GET of line 86 *)
}.

Definition setup (b : boot_input) : M unit :=
  emit (Call "pinMode(LED_BUILTIN, OUTPUT)") ;;
  emit (Call "Serial.begin") ;;
  connect_to_wifi (boot_polls b) (boot_wifi_http b) ;;
  ota_setup ;;
  emit (Call "pinMode(MONITORED_INPUT, INPUT_PULLUP)") ;;
  v <- digitalRead_MONITORED_INPUT (boot_raw b) ;;
  assign (set_last_state v) ;;
  l <- gets last_state ;;
  assign (set_new_state l) ;;
  delay 1000 ;;
  r <- webhookTrigger "Notifier_powered_and_running!" (boot_http b) ;;
  assign (set_response r) ;;
  report_response "Webhook OK for Notifier_powered_and_running!".

(** ** [loop] (lines 94-180) *)

Record cycle_input : Type := mkCycle {
  raw : bool;                   (* digitalRead of line 100 *)
  t_rise : Z;                   (* millis() of line 111 *)
  t_fall : Z;                   (* millis() of line 127 *)
  t_ton_print : Z;              (* millis() of line 143 *)
  t_ton : Z;                    (* millis() of line 144 *)
  http_ton : Z;                 (* status of the GET of line 148 *)
  t_tof_print : Z;              (* millis() of line 157 *)
  t_tof : Z;                    (* millis() of line 158 *)
  http_tof : Z;                 (* status of the GET of line 162 *)
  t_led : Z;                    (* millis() of line 232 *)
  outages : list (nat * Z)      (* one entry per turn of the while of line 172:
                                   the polls and the status code of that
                                   connect_to_wifi *)
}.

(** Lines 103-139: detection of an input change. *)
Definition input_change (i : cycle_input) : M unit :=
  ns <- gets new_state ;;
  ls <- gets last_state ;;
  when (negb (Bool.eqb ns ls))
    (Serial_print "New input state: " ;;
     (ns <- gets new_state ;;
      a <- gets approved_alarm_state ;;
      when (Bool.eqb ns true && Bool.eqb a false)
        (Serial_println "HIGH (circuit got OPEN) and not in the approved ALARM state" ;;
         assign (set_TOF_running false) ;;
         assign (set_TON_running true) ;;
         now <- millis (t_rise i) ;;
         assign (set_ton_start_marker now))) ;;
     (ns <- gets new_state ;;
      a <- gets approved_alarm_state ;;
      when (Bool.eqb ns true && Bool.eqb a true)
        (Serial_println "HIGH (circuit got OPEN) when still in approved ALARM state" ;;
         assign (set_TOF_running false) ;;
         assign (set_TON_running false))) ;;
     (ns <- gets new_state ;;
      a <- gets approved_alarm_state ;;
      when (Bool.eqb ns false && Bool.eqb a true)
        (Serial_println "LOW (circuit got CLOSED) when in approved ALARM state" ;;
         assign (set_TOF_running true) ;;
         assign (set_TON_running false) ;;
         now <- millis (t_fall i) ;;
         assign (set_tof_start_marker now))) ;;
     (ns <- gets new_state ;;
      a <- gets approved_alarm_state ;;
      when (Bool.eqb ns false && Bool.eqb a false)
        (Serial_println "LOW (circuit got CLOSED) when not in approved ALARM state" ;;
         assign (set_TOF_running false) ;;
         assign (set_TON_running false))) ;;
     ns <- gets new_state ;;
     assign (set_last_state ns)).

(** Lines 141-153: the turn-on delay. *)
Definition TON_implementation (i : cycle_input) : M unit :=
  r <- gets TON_running ;;
  when (Bool.eqb r true)
    (Serial_print "TON running for:" ;;
     (now <- millis (t_ton_print i) ;;
      m <- gets ton_start_marker ;;
      Serial_print_num (usub now m)) ;;
     Serial_println " [ms]" ;;
     now <- millis (t_ton i) ;;
     m <- gets ton_start_marker ;;
     when (ton_threshold <=? usub now m)
       (Serial_println "Entering approved ALARM state." ;;
        assign (set_TON_running false) ;;
        assign (set_approved_alarm_state true) ;;
        c <- webhookTrigger "Pump-relay_circuit_OPEN!" (http_ton i) ;;
        assign (set_response c) ;;
        report_response "Webhooks: OK for Pump-relay_circuit_OPEN!")).

(** Lines 155-166: the turn-off delay. *)
Definition TOF_implementation (i : cycle_input) : M unit :=
  r <- gets TOF_running ;;
  when (Bool.eqb r true)
    (Serial_print "TOF running for:" ;;
     (now <- millis (t_tof_print i) ;;
      m <- gets tof_start_marker ;;
      Serial_print_num (usub now m)) ;;
     Serial_println " [ms]" ;;
     now <- millis (t_tof i) ;;
     m <- gets tof_start_marker ;;
     when (tof_threshold <=? usub now m)
       (Serial_println "Leaving approved ALARM state." ;;
        assign (set_TOF_running false) ;;
        assign (set_approved_alarm_state false) ;;
        c <- webhookTrigger "Pump-relay_circuit_CLOSED_OK!" (http_tof i) ;;
        assign (set_response c) ;;
        report_response "Webhooks: OK for Pump-relay_circuit_CLOSED_OK!")).

(** Lines 171-176: [while (WiFi.status() != WL_CONNECTED)].  The loop turns
    once for each entry of the list. *)
Fixpoint wifi_check (l : list (nat * Z)) : M unit :=
  match l with
  | [] => ret tt
  | (polls, httpCode) :: rest =>
      Serial_println "Lost connection to WiFi!" ;;
      connect_to_wifi polls httpCode ;;
      wifi_check rest
  end.

(** Lines 96-139: up to the point where the timers are looked at. *)
Definition sample_and_detect (i : cycle_input) : M unit :=
  emit (Call "ArduinoOTA.handle") ;;
  v <- digitalRead_MONITORED_INPUT (raw i) ;;
  assign (set_new_state v) ;;
  input_change i.

(** Lines 168-178: what follows the timers. *)
Definition indicate_and_pace (i : cycle_input) : M unit :=
  toggle_inbuilt_led_fast (t_led i) ;;
  wifi_check (outages i) ;;
  delay 100.

Definition loop (i : cycle_input) : M unit :=
  sample_and_detect i ;;
  TON_implementation i ;;
  TOF_implementation i ;;
  indicate_and_pace i.

(** The sketch as the Arduino core runs it: [setup] once, then [loop] over
    and over; here for as many passes as there are inputs. *)
Fixpoint loops (l : list cycle_input) : M unit :=
  match l with
  | [] => ret tt
  | i :: rest => loop i ;; loops rest
  end.

Definition sketch (b : boot_input) (l : list cycle_input) : M unit :=
  setup b ;; loops l.

(** The globals after boot and the passes of [l], and the effects so far. *)
Definition state_after (b : boot_input) (l : list cycle_input) : globals :=
  exec (sketch b l) initial_globals.

Definition trace_of (b : boot_input) (l : list cycle_input) : list effect :=
  trace (sketch b l) initial_globals.

(** The globals at the two expiry checks of a pass. *)
Definition at_TON_check (i : cycle_input) (g : globals) : globals :=
  exec (sample_and_detect i) g.

Definition at_TOF_check (i : cycle_input) (g : globals) : globals :=
  exec (sample_and_detect i ;; TON_implementation i) g.

(** The globals when [toggle_inbuilt_led_fast] is called (line 169). *)
Definition at_LED_step (i : cycle_input) (g : globals) : globals :=
  exec (sample_and_detect i ;; TON_implementation i ;; TOF_implementation i) g.

(** ** Observations *)

(** The variables of the debounce machine. *)
Definition machine_vars (g : globals) : bool * bool * bool * Z * Z * bool :=
  (approved_alarm_state g, TON_running g, TOF_running g,
   ton_start_marker g, tof_start_marker g, last_state g).

Definition EnteredAlarm_label : string := "Pump-relay_circuit_OPEN!".
Definition ClearedAlarm_label : string := "Pump-relay_circuit_CLOSED_OK!".

Definition is_get (label : string) (e : effect) : bool :=
  match e with
  | HttpGet v => String.eqb v label
  | _ => false
  end.

Definition is_println (text : string) (e : effect) : bool :=
  match e with
  | Println s => String.eqb s text
  | _ => false
  end.

Definition is_EnteredAlarm : effect -> bool := is_get EnteredAlarm_label.
Definition is_ClearedAlarm : effect -> bool := is_get ClearedAlarm_label.

(** The log line of line 108: the turn-on timer is started there and nowhere
    else; that of line 124 for the turn-off timer. *)
Definition is_TON_start : effect -> bool :=
  is_println "HIGH (circuit got OPEN) and not in the approved ALARM state".
Definition is_TOF_start : effect -> bool :=
  is_println "LOW (circuit got CLOSED) when in approved ALARM state".

Definition count (p : effect -> bool) (tr : list effect) : nat :=
  List.length (filter p tr).

(** The GETs of a trace, in order. *)
Definition gets_of (tr : list effect) : list effect :=
  filter (fun e => match e with HttpGet _ => true | _ => false end) tr.

(** A trace is read from left to right with one token: [start] puts it down,
    [fire] picks it up and fails if there is none.  The check holds when every
    [fire] has a [start] of its own before it. *)
Fixpoint once_per_start (start fire : effect -> bool) (token : bool)
  (tr : list effect) : bool :=
  match tr with
  | [] => true
  | e :: rest =>
      if start e then once_per_start start fire true rest
      else if fire e then token && once_per_start start fire false rest
      else once_per_start start fire token rest
  end.

Fixpoint token_after (start fire : effect -> bool) (token : bool)
  (tr : list effect) : bool :=
  match tr with
  | [] => token
  | e :: rest =>
      if start e then token_after start fire true rest
      else if fire e then token_after start fire false rest
      else token_after start fire token rest
  end.

(** The four states of the specification, read off the globals: a running
    timer makes the state a pending one, otherwise the approved flag decides. *)
Inductive AlarmState : Type := Cleared | Confirming | Armed | Clearing.

Definition alarm_state (g : globals) : AlarmState :=
  if TON_running g then Confirming
  else if TOF_running g then Clearing
  else if approved_alarm_state g then Armed
  else Cleared.

(** The samples never go from false to true. *)
Fixpoint no_rising_edge (prev : bool) (samples : list bool) : bool :=
  match samples with
  | [] => true
  | r :: rest => negb (negb prev && r) && no_rising_edge r rest
  end.

(** What the debounce machine shows of itself in a trace: its two
    notifications and the two log lines that start a timer. *)
Definition relevant (e : effect) : bool :=
  is_EnteredAlarm e || is_ClearedAlarm e || is_TON_start e || is_TOF_start e.

Definition observe (tr : list effect) : list effect := filter relevant tr.

(** The text the connection loop prints while it waits. *)
Fixpoint waiting_trace (polls : nat) : list effect :=
  match polls with
  | O => []
  | S n => Delay 500 :: Print "*" :: waiting_trace n
  end.

(** The value of [response] after the reconnection loop. *)
Fixpoint wifi_response (l : list (nat * Z)) (r : Z) : Z :=
  match l with
  | [] => r
  | (_, c) :: rest => wifi_response rest c
  end.

(** What holds of the timers between two passes of [loop]: a running
    turn-on timer means the input is high and the alarm not approved, a
    running turn-off timer means the input is low and the alarm approved, and
    an approved alarm with no turn-off timer means the input is high. *)
Definition timers_consistent (g : globals) : bool :=
  implb (TON_running g)
    (negb (approved_alarm_state g) && negb (TOF_running g) && last_state g)
  && implb (TOF_running g)
    (approved_alarm_state g && negb (last_state g))
  && implb (approved_alarm_state g && negb (TOF_running g)) (last_state g).

(** The same pass with other status codes for its two notifications. *)
Definition with_http_codes (c_ton c_tof : Z) (i : cycle_input) : cycle_input :=
  mkCycle (raw i) (t_rise i) (t_fall i) (t_ton_print i) (t_ton i) c_ton
    (t_tof_print i) (t_tof i) c_tof (t_led i) (outages i).

(** The same pass with other connection losses at line 172. *)
Definition with_outages (l : list (nat * Z)) (i : cycle_input) : cycle_input :=
  mkCycle (raw i) (t_rise i) (t_fall i) (t_ton_print i) (t_ton i) (http_ton i)
    (t_tof_print i) (t_tof i) (http_tof i) (t_led i) l.

(** A pass in which every clock reading is [t], every GET is answered with
    200 and the connection holds. *)
Definition tick (r : bool) (t : Z) : cycle_input :=
  mkCycle r t t t t 200 t t 200 t [].

(** The value written to the LED when it is inverted (line 235). *)
Definition inverted (level : Z) : Z := if level =? LOW then HIGH else LOW.

(** The two notifications and the two log lines, as effects. *)
Definition EnteredAlarm : effect := HttpGet EnteredAlarm_label.
Definition ClearedAlarm : effect := HttpGet ClearedAlarm_label.
Definition TON_start_line : effect :=
  Println "HIGH (circuit got OPEN) and not in the approved ALARM state".
Definition TOF_start_line : effect :=
  Println "LOW (circuit got CLOSED) when in approved ALARM state".

(** The conditions of lines 142 and 144, and of lines 156 and 158. *)
Definition TON_expired (i : cycle_input) (g : globals) : bool :=
  TON_running g && (ton_threshold <=? usub (wrap (t_ton i)) (ton_start_marker g)).

Definition TOF_expired (i : cycle_input) (g : globals) : bool :=
  TOF_running g && (tof_threshold <=? usub (wrap (t_tof i)) (tof_start_marker g)).

(** ** The OTA callbacks (lines 251-281)

    [ota_setup] registers four callbacks; the OTA library calls them during
    an update.  The callback of [onProgress] divides, and the divisor is zero
    for a total below 100: the division is modelled as a partial operation. *)

(** [a / b] on [unsigned int]; no result for [b = 0]. *)
Definition udiv (a b : Z) : option Z :=
  if b =? 0 then None else Some (a / b).

(** The argument of the [printf] of line 266. *)
Definition ota_progress_percent (progress total : Z) : option Z :=
  match udiv total 100 with
  | Some q => udiv progress q
  | None => None
  end.

Definition carriage_return : string := String (Ascii.ascii_of_nat 13) EmptyString.

(** The callback of [onProgress] (lines 265-267). *)
Definition ota_onProgress (progress total : Z) : option (M unit) :=
  match ota_progress_percent progress total with
  | Some p =>
      Some (Serial_print "Progress: " ;; Serial_print_num p ;;
            Serial_print ("%" ++ carriage_return))
  | None => None
  end.

(** ** More observations *)

Definition connected_label : string := "Pump-relay_connected_to_WiFi!".
Definition powered_label : string := "Notifier_powered_and_running!".

(** The milliseconds a trace spends in [delay]. *)
Fixpoint total_delay (tr : list effect) : Z :=
  match tr with
  | [] => 0
  | Delay ms :: rest => ms + total_delay rest
  | _ :: rest => total_delay rest
  end.

(** The levels written to the LED pin, in order. *)
Fixpoint led_writes (tr : list effect) : list Z :=
  match tr with
  | [] => []
  | LedWrite v :: rest => v :: led_writes rest
  | _ :: rest => led_writes rest
  end.

(** The time [connect_to_wifi] blocks for each entry of the list of line 172. *)
Fixpoint reconnect_delay (l : list (nat * Z)) : Z :=
  match l with
  | [] => 0
  | (polls, _) :: rest => 1000 + 500 * Z.of_nat polls + reconnect_delay rest
  end.

(** A trace in which the two alarm notifications alternate: with [armed]
    false the next one must be the entry, with [armed] true the exit. *)
Fixpoint alternates (armed : bool) (tr : list effect) : bool :=
  match tr with
  | [] => true
  | e :: rest =>
      if is_EnteredAlarm e then negb armed && alternates true rest
      else if is_ClearedAlarm e then armed && alternates false rest
      else alternates armed rest
  end.

Fixpoint armed_after (armed : bool) (tr : list effect) : bool :=
  match tr with
  | [] => armed
  | e :: rest =>
      if is_EnteredAlarm e then armed_after true rest
      else if is_ClearedAlarm e then armed_after false rest
      else armed_after armed rest
  end.

(** The most recent sample of a run. *)
Definition latest_sample (b : boot_input) (l : list cycle_input) : bool :=
  last (map raw l) (boot_raw b).

(** *** Stretches of one level

    A stretch of high samples is timed from the pass that saw it rise (the
    reading of line 111); a stretch of low samples from the pass that saw it
    fall (the reading of line 127).  [level] is the level of the stretch,
    [prev] the sample before the pass, [start] the reading the current
    stretch is timed from, if it is timed. *)
Definition stretch_start (level prev : bool) (start : option Z)
  (i : cycle_input) : option Z :=
  if Bool.eqb (raw i) level
  then if Bool.eqb prev level then start
       else Some (if level then t_rise i else t_fall i)
  else None.

(** The reading of the expiry check of the timer of that level. *)
Definition check_time (level : bool) (i : cycle_input) : Z :=
  if level then t_ton i else t_tof i.

Definition threshold_of (level : bool) : Z :=
  if level then ton_threshold else tof_threshold.

(** Every timed stretch of [level] is, at every expiry check, younger than
    the threshold of its timer. *)
Fixpoint brief_stretches (level prev : bool) (start : option Z)
  (l : list cycle_input) : bool :=
  match l with
  | [] => true
  | i :: rest =>
      let start' := stretch_start level prev start i in
      match start' with
      | Some s => (0 <=? check_time level i - s)
                  && (check_time level i - s <? threshold_of level)
      | None => true
      end
      && brief_stretches level (raw i) start' rest
  end.

(** The reading the stretch at the end of [l] is timed from. *)
Fixpoint stretch_after (level prev : bool) (start : option Z)
  (l : list cycle_input) : option Z :=
  match l with
  | [] => start
  | i :: rest => stretch_after level (raw i) (stretch_start level prev start i) rest
  end.

(** *** The transition table of the four states

    The table as the specification draws it: first the edge of the pass, then
    the expiry of the timer that is pending after it.  [edge] is [Some r] for
    a sample [r] that differs from the last one. *)
Definition table_edge (s : AlarmState) (edge : option bool) : AlarmState :=
  match edge, s with
  | Some true, Cleared => Confirming
  | Some false, Confirming => Cleared
  | Some false, Armed => Clearing
  | Some true, Clearing => Armed
  | _, _ => s
  end.

Definition table_expiry (s : AlarmState) (ton_due tof_due : bool)
  : AlarmState * list effect :=
  match s with
  | Confirming => if ton_due then (Armed, [EnteredAlarm]) else (Confirming, [])
  | Clearing => if tof_due then (Cleared, [ClearedAlarm]) else (Clearing, [])
  | _ => (s, [])
  end.

Definition table_step (s : AlarmState) (edge : option bool)
  (ton_due tof_due : bool) : AlarmState * list effect :=
  table_expiry (table_edge s edge) ton_due tof_due.

(** The edge of a pass, and the two comparisons of lines 144 and 158. *)
Definition edge_of (i : cycle_input) (g : globals) : option bool :=
  if Bool.eqb (raw i) (last_state g) then None else Some (raw i).

Definition ton_due (i : cycle_input) (g : globals) : bool :=
  ton_threshold <=? usub (wrap (t_ton i)) (ton_start_marker (at_TON_check i g)).

Definition tof_due (i : cycle_input) (g : globals) : bool :=
  tof_threshold <=? usub (wrap (t_tof i)) (tof_start_marker (at_TOF_check i g)).

(** The two alarm notifications of a trace, in order. *)
Definition alarm_notifications (tr : list effect) : list effect :=
  filter (fun e => is_EnteredAlarm e || is_ClearedAlarm e) tr.

(** The machine while the alarm is not approved: the turn-off timer is
    idle, and the turn-on timer runs exactly when the current high stretch is
    timed, from the reading it was started at. *)
Definition unapproved_timed (g : globals) (prev : bool) (start : option Z) : Prop :=
  approved_alarm_state g = false /\ TOF_running g = false
  /\ last_state g = prev
  /\ match start with
     | Some s => TON_running g = true /\ prev = true
                 /\ ton_start_marker g = wrap s
     | None => TON_running g = false
     end.

(** The machine while the alarm is approved, likewise. *)
Definition approved_timed (g : globals) (prev : bool) (start : option Z) : Prop :=
  approved_alarm_state g = true /\ TON_running g = false
  /\ last_state g = prev
  /\ match start with
     | Some s => TOF_running g = true /\ prev = false
                 /\ tof_start_marker g = wrap s
     | None => TOF_running g = false
     end.

(** * Properties *)

(** ** Running a sequence of two computations *)

Lemma exec_seq {A B : Type} (m : M A) (k : M B) (g : globals) :
  exec (m ;; k) g = exec k (exec m g).
Proof.
  unfold exec, bind. destruct (m g) as [[a g1] o1]. cbn.
  destruct (k g1) as [[b g2] o2]. reflexivity.
Qed.

Lemma trace_seq {A B : Type} (m : M A) (k : M B) (g : globals) :
  trace (m ;; k) g = trace m g ++ trace k (exec m g).
Proof.
  unfold trace, exec, bind. destruct (m g) as [[a g1] o1]. cbn.
  destruct (k g1) as [[b g2] o2]. reflexivity.
Qed.


Lemma set_response_same (g : globals) : set_response (response g) g = g.
Proof. destruct g; reflexivity. Qed.



(** ** The reconnection path *)

Lemma wait_for_wifi_run (polls : nat) (g : globals) :
  wait_for_wifi polls g = (tt, g, waiting_trace polls).
Proof.
  induction polls as [|n IH]; [reflexivity|].
  cbn [wait_for_wifi waiting_trace]. unfold bind, delay, Serial_print, emit.
  rewrite IH. reflexivity.
Qed.

Lemma connect_to_wifi_exec (polls : nat) (c : Z) (g : globals) :
  exec (connect_to_wifi polls c) g = set_response c g.
Proof.
  unfold exec, connect_to_wifi, bind, digitalWrite_LED_BUILTIN, delay,
    Serial_print, Serial_println, emit. cbn.
  rewrite wait_for_wifi_run. cbn.
  unfold report_response, bind, gets. cbn.
  destruct (c =? 200); reflexivity.
Qed.

Lemma connect_to_wifi_trace_indep (polls : nat) (c : Z) (g1 g2 : globals) :
  trace (connect_to_wifi polls c) g1 = trace (connect_to_wifi polls c) g2.
Proof.
  unfold trace, connect_to_wifi, bind, digitalWrite_LED_BUILTIN, delay,
    Serial_print, Serial_println, emit. cbn.
  rewrite !wait_for_wifi_run. cbn.
  unfold report_response, bind, gets. cbn.
  destruct (c =? 200); reflexivity.
Qed.

Lemma wifi_check_exec (l : list (nat * Z)) (g : globals) :
  exec (wifi_check l) g = set_response (wifi_response l (response g)) g.
Proof.
  revert g. induction l as [|[polls c] rest IH]; intro g.
  - cbn. symmetry. apply set_response_same.
  - cbn [wifi_check wifi_response]. rewrite !exec_seq, IH, connect_to_wifi_exec.
    reflexivity.
Qed.

Lemma wifi_check_trace_indep (l : list (nat * Z)) (g1 g2 : globals) :
  trace (wifi_check l) g1 = trace (wifi_check l) g2.
Proof.
  revert g1 g2. induction l as [|[polls c] rest IH]; intros g1 g2.
  - reflexivity.
  - cbn [wifi_check]. rewrite !trace_seq.
    f_equal. f_equal; [apply connect_to_wifi_trace_indep | apply IH].
Qed.

(** ** What a trace shows of the machine *)

Lemma observe_app (tr1 tr2 : list effect) :
  observe (tr1 ++ tr2) = observe tr1 ++ observe tr2.
Proof. apply filter_app. Qed.

Lemma observe_waiting (polls : nat) : observe (waiting_trace polls) = [].
Proof. induction polls as [|n IH]; [reflexivity | exact IH]. Qed.

Lemma observe_connect_to_wifi (polls : nat) (c : Z) (g : globals) :
  observe (trace (connect_to_wifi polls c) g) = [].
Proof.
  unfold trace, connect_to_wifi, bind, digitalWrite_LED_BUILTIN, delay,
    Serial_print, Serial_println, emit. cbn.
  rewrite wait_for_wifi_run. cbn.
  unfold report_response, bind, gets. cbn.
  destruct (c =? 200); cbn; rewrite filter_app;
    change (filter relevant (waiting_trace polls)) with (observe (waiting_trace polls));
    rewrite observe_waiting; reflexivity.
Qed.

Lemma observe_wifi_check (l : list (nat * Z)) (g : globals) :
  observe (trace (wifi_check l) g) = [].
Proof.
  revert g. induction l as [|[polls c] rest IH]; intro g.
  - reflexivity.
  - cbn [wifi_check]. rewrite !trace_seq, !observe_app, IH, observe_connect_to_wifi.
    reflexivity.
Qed.


Lemma count_observe (p : effect -> bool) (tr : list effect) :
  (forall e, p e = true -> relevant e = true) ->
  count p tr = count p (observe tr).
Proof.
  intro Hp. unfold count, observe.
  induction tr as [|e tr IH]; [reflexivity|].
  cbn [filter]. destruct (relevant e) eqn:Hr.
  - cbn [filter]. destruct (p e); cbn [List.length]; rewrite IH; reflexivity.
  - destruct (p e) eqn:He; [|exact IH].
    apply Hp in He. congruence.
Qed.

Lemma once_per_start_app (s f : effect -> bool) (tr1 tr2 : list effect) :
  forall tok,
    once_per_start s f tok (tr1 ++ tr2)
    = once_per_start s f tok tr1
      && once_per_start s f (token_after s f tok tr1) tr2.
Proof.
  induction tr1 as [|e tr1 IH]; intro tok; [reflexivity|].
  cbn [app once_per_start token_after].
  destruct (s e); [apply IH|].
  destruct (f e); [|apply IH].
  rewrite IH. apply andb_assoc.
Qed.


Lemma once_per_start_observe (s f : effect -> bool) (tr : list effect) :
  (forall e, s e = true -> relevant e = true) ->
  (forall e, f e = true -> relevant e = true) ->
  forall tok,
    once_per_start s f tok tr = once_per_start s f tok (observe tr)
    /\ token_after s f tok tr = token_after s f tok (observe tr).
Proof.
  intros Hs Hf. unfold observe.
  induction tr as [|e tr IH]; intro tok; [split; reflexivity|].
  cbn [filter once_per_start token_after].
  destruct (relevant e) eqn:Hr; cbn [once_per_start token_after].
  - destruct (s e); [apply IH|].
    destruct (f e); [|apply IH].
    destruct (IH false) as [-> ->]. split; reflexivity.
  - destruct (s e) eqn:Hse; [apply Hs in Hse; congruence|].
    destruct (f e) eqn:Hfe; [apply Hf in Hfe; congruence|].
    apply IH.
Qed.

Lemma relevant_EnteredAlarm (e : effect) :
  is_EnteredAlarm e = true -> relevant e = true.
Proof. unfold relevant. intros ->. reflexivity. Qed.

Lemma relevant_ClearedAlarm (e : effect) :
  is_ClearedAlarm e = true -> relevant e = true.
Proof. unfold relevant. intros ->. apply orb_true_iff. left. apply orb_true_iff. left. apply orb_true_r. Qed.

Lemma relevant_TON_start (e : effect) :
  is_TON_start e = true -> relevant e = true.
Proof. unfold relevant. intros ->. apply orb_true_iff. left. apply orb_true_r. Qed.

Lemma relevant_TOF_start (e : effect) :
  is_TOF_start e = true -> relevant e = true.
Proof. unfold relevant. intros ->. apply orb_true_r. Qed.

(** ** One pass of [loop], taken apart *)

Ltac unfold_sketch :=
  unfold at_TON_check, at_TOF_check, sample_and_detect, input_change,
    TON_implementation, TOF_implementation, toggle_inbuilt_led_fast,
    webhookTrigger, report_response, millis, digitalRead_MONITORED_INPUT,
    digitalWrite_LED_BUILTIN, delay, Serial_print, Serial_println,
    Serial_print_num, when, exec, trace, bind, gets, assign, emit, ret.

Lemma at_TOF_check_eq (i : cycle_input) (g : globals) :
  at_TOF_check i g = exec (TON_implementation i) (at_TON_check i g).
Proof. unfold at_TOF_check, at_TON_check. apply exec_seq. Qed.

(** Lines 100-139 in closed form: the globals they leave, and what they show. *)
Lemma sample_and_detect_exec (i : cycle_input) (g : globals) :
  at_TON_check i g
  = let g0 := set_new_state (raw i) g in
    if Bool.eqb (raw i) (last_state g) then g0
    else set_last_state (raw i)
      (if raw i then
         if approved_alarm_state g
         then set_TON_running false (set_TOF_running false g0)
         else set_ton_start_marker (wrap (t_rise i))
                (set_TON_running true (set_TOF_running false g0))
       else
         if approved_alarm_state g
         then set_tof_start_marker (wrap (t_fall i))
                (set_TON_running false (set_TOF_running true g0))
         else set_TON_running false (set_TOF_running false g0)).
Proof.
  destruct g as [ls cl pl rs last new tonm tofm ton tof app].
  destruct i as [r tr tf tp tt ht tfp tft hf tl out].
  destruct r, last, app; reflexivity.
Qed.

Lemma sample_and_detect_observe (i : cycle_input) (g : globals) :
  observe (trace (sample_and_detect i) g)
  = if Bool.eqb (raw i) (last_state g) then []
    else if raw i
         then if approved_alarm_state g then [] else [TON_start_line]
         else if approved_alarm_state g then [TOF_start_line] else [].
Proof.
  destruct g as [ls cl pl rs last new tonm tofm ton tof app].
  destruct i as [r tr tf tp tt ht tfp tft hf tl out].
  destruct r, last, app; reflexivity.
Qed.

(** Lines 141-153 in closed form. *)
Lemma TON_implementation_exec (i : cycle_input) (g : globals) :
  exec (TON_implementation i) g
  = if TON_expired i g
    then set_response (http_ton i)
           (set_approved_alarm_state true (set_TON_running false g))
    else g.
Proof.
  destruct g as [ls cl pl rs last new tonm tofm ton tof app].
  destruct i as [r tr tf tp tt ht tfp tft hf tl out].
  unfold TON_expired. destruct ton; [|reflexivity].
  unfold_sketch. cbn.
  destruct (ton_threshold <=? usub (wrap tt) tonm); [|reflexivity].
  cbn. destruct (ht =? 200); reflexivity.
Qed.

Lemma TON_implementation_observe (i : cycle_input) (g : globals) :
  observe (trace (TON_implementation i) g)
  = if TON_expired i g then [EnteredAlarm] else [].
Proof.
  destruct g as [ls cl pl rs last new tonm tofm ton tof app].
  destruct i as [r tr tf tp tt ht tfp tft hf tl out].
  unfold TON_expired. destruct ton; [|reflexivity].
  unfold_sketch. cbn.
  destruct (ton_threshold <=? usub (wrap tt) tonm); [|reflexivity].
  cbn. destruct (ht =? 200); reflexivity.
Qed.

(** Lines 155-166 in closed form. *)
Lemma TOF_implementation_exec (i : cycle_input) (g : globals) :
  exec (TOF_implementation i) g
  = if TOF_expired i g
    then set_response (http_tof i)
           (set_approved_alarm_state false (set_TOF_running false g))
    else g.
Proof.
  destruct g as [ls cl pl rs last new tonm tofm ton tof app].
  destruct i as [r tr tf tp tt ht tfp tft hf tl out].
  unfold TOF_expired. destruct tof; [|reflexivity].
  unfold_sketch. cbn.
  destruct (tof_threshold <=? usub (wrap tft) tofm); [|reflexivity].
  cbn. destruct (hf =? 200); reflexivity.
Qed.

Lemma TOF_implementation_observe (i : cycle_input) (g : globals) :
  observe (trace (TOF_implementation i) g)
  = if TOF_expired i g then [ClearedAlarm] else [].
Proof.
  destruct g as [ls cl pl rs last new tonm tofm ton tof app].
  destruct i as [r tr tf tp tt ht tfp tft hf tl out].
  unfold TOF_expired. destruct tof; [|reflexivity].
  unfold_sketch. cbn.
  destruct (tof_threshold <=? usub (wrap tft) tofm); [|reflexivity].
  cbn. destruct (hf =? 200); reflexivity.
Qed.

(** Lines 229-245 in closed form. *)
Lemma toggle_inbuilt_led_fast_exec (t : Z) (g : globals) :
  exec (toggle_inbuilt_led_fast t) g
  = if approved_alarm_state g
    then
      let g1 := set_current_led_millis (wrap t) g in
      if led_interval <=? usub (wrap t) (previous_led_millis g)
      then set_led_state (inverted (led_state g))
             (set_previous_led_millis (wrap t) g1)
      else g1
    else set_led_state HIGH g.
Proof.
  destruct g as [ls cl pl rs last new tonm tofm ton tof app].
  destruct app; [|reflexivity].
  unfold_sketch. cbn.
  destruct (led_interval <=? usub (wrap t) pl); [|reflexivity].
  unfold inverted. cbn. destruct (ls =? LOW); reflexivity.
Qed.

Lemma toggle_inbuilt_led_fast_trace (t : Z) (g : globals) :
  trace (toggle_inbuilt_led_fast t) g
  = [LedWrite (led_state (exec (toggle_inbuilt_led_fast t) g))].
Proof.
  destruct g as [ls cl pl rs last new tonm tofm ton tof app].
  destruct app; [|reflexivity].
  unfold_sketch. cbn.
  destruct (led_interval <=? usub (wrap t) pl); [|reflexivity].
  cbn. destruct (ls =? LOW); reflexivity.
Qed.

Lemma toggle_machine_vars (t : Z) (g : globals) :
  machine_vars (exec (toggle_inbuilt_led_fast t) g) = machine_vars g.
Proof.
  rewrite toggle_inbuilt_led_fast_exec.
  destruct (approved_alarm_state g); [|reflexivity].
  cbv zeta. destruct (led_interval <=? _); reflexivity.
Qed.

Lemma toggle_observe (t : Z) (g : globals) :
  observe (trace (toggle_inbuilt_led_fast t) g) = [].
Proof. rewrite toggle_inbuilt_led_fast_trace. reflexivity. Qed.

Lemma indicate_and_pace_machine_vars (i : cycle_input) (g : globals) :
  machine_vars (exec (indicate_and_pace i) g) = machine_vars g.
Proof.
  unfold indicate_and_pace. rewrite !exec_seq, wifi_check_exec.
  cbn. apply toggle_machine_vars.
Qed.

Lemma indicate_and_pace_observe (i : cycle_input) (g : globals) :
  observe (trace (indicate_and_pace i) g) = [].
Proof.
  unfold indicate_and_pace.
  rewrite !trace_seq, !observe_app, toggle_observe, observe_wifi_check.
  reflexivity.
Qed.

Lemma loop_machine_vars (i : cycle_input) (g : globals) :
  machine_vars (exec (loop i) g)
  = machine_vars (exec (TOF_implementation i) (at_TOF_check i g)).
Proof.
  unfold loop. rewrite !exec_seq, indicate_and_pace_machine_vars.
  rewrite at_TOF_check_eq. reflexivity.
Qed.

Lemma loop_observe (i : cycle_input) (g : globals) :
  observe (trace (loop i) g)
  = observe (trace (sample_and_detect i) g)
    ++ observe (trace (TON_implementation i) (at_TON_check i g))
    ++ observe (trace (TOF_implementation i) (at_TOF_check i g)).
Proof.
  unfold loop.
  rewrite !trace_seq, !observe_app, indicate_and_pace_observe.
  rewrite at_TOF_check_eq, app_nil_r. reflexivity.
Qed.

(** ** Boot and whole runs *)

Lemma setup_exec (b : boot_input) :
  exec (setup b) initial_globals
  = set_response (boot_http b)
      (set_new_state (boot_raw b)
         (set_last_state (boot_raw b) initial_globals)).
Proof.
  unfold setup. rewrite !exec_seq, connect_to_wifi_exec.
  unfold ota_setup, exec, bind, webhookTrigger, report_response,
    digitalRead_MONITORED_INPUT, delay, gets, assign, emit, ret. cbn.
  destruct (boot_http b =? 200); reflexivity.
Qed.

Lemma setup_observe (b : boot_input) :
  observe (trace (setup b) initial_globals) = [].
Proof.
  unfold setup. rewrite !trace_seq, !observe_app, observe_connect_to_wifi.
  rewrite ?exec_seq, connect_to_wifi_exec.
  unfold ota_setup, trace, exec, bind, webhookTrigger, report_response,
    digitalRead_MONITORED_INPUT, delay, gets, assign, emit, ret. cbn.
  destruct (boot_http b =? 200); reflexivity.
Qed.

Lemma loops_exec_app (l1 l2 : list cycle_input) (g : globals) :
  exec (loops (l1 ++ l2)) g = exec (loops l2) (exec (loops l1) g).
Proof.
  revert g. induction l1 as [|i l1 IH]; intro g; [reflexivity|].
  cbn [app loops]. rewrite !exec_seq. apply IH.
Qed.

Lemma loops_trace_app (l1 l2 : list cycle_input) (g : globals) :
  trace (loops (l1 ++ l2)) g
  = trace (loops l1) g ++ trace (loops l2) (exec (loops l1) g).
Proof.
  revert g. induction l1 as [|i l1 IH]; intro g; [reflexivity|].
  cbn [app loops]. rewrite !trace_seq, !exec_seq, IH. apply app_assoc.
Qed.

Lemma loops_one (i : cycle_input) (g : globals) :
  exec (loops [i]) g = exec (loop i) g
  /\ trace (loops [i]) g = trace (loop i) g.
Proof.
  cbn [loops]. rewrite exec_seq, trace_seq. split; [reflexivity|].
  apply app_nil_r.
Qed.

Lemma state_after_snoc (b : boot_input) (l : list cycle_input) (i : cycle_input) :
  state_after b (l ++ [i]) = exec (loop i) (state_after b l).
Proof.
  unfold state_after, sketch. rewrite !exec_seq, loops_exec_app.
  apply loops_one.
Qed.



(** ** The timers and the approved flag agree on every reachable state *)

(** Rewrites the three blocks of a pass into their closed forms and splits
    on the flags and on the two expiry comparisons. *)
Ltac open_pass :=
  rewrite ?at_TOF_check_eq;
  rewrite ?TOF_implementation_exec, ?TOF_implementation_observe;
  rewrite ?TON_implementation_exec, ?TON_implementation_observe;
  rewrite ?sample_and_detect_exec, ?sample_and_detect_observe;
  unfold TON_expired, TOF_expired.

Ltac split_ifs :=
  repeat match goal with
  | |- context [if ?c then _ else _] =>
      lazymatch c with
      | context [if _ then _ else _] => fail
      | _ => destruct c eqn:?
      end; cbn in *
  end.

Ltac by_cases g i H :=
  destruct g as [ls cl pl rs last new tonm tofm ton tof app];
  destruct i as [r tr tf tp tt ht tfp tft hf tl out];
  unfold timers_consistent in H; cbn in H;
  destruct last, ton, tof, app; try discriminate H; clear H;
  destruct r; cbn; split_ifs.

Ltac all_cases g i :=
  destruct g as [ls cl pl rs last new tonm tofm ton tof app];
  destruct i as [r tr tf tp tt ht tfp tft hf tl out];
  destruct last, ton, tof, app, r; cbn; split_ifs.

Ltac loop_to_core i g :=
  let Hm := fresh "Hm" in
  let Ha := fresh "Ha" in
  let Hton := fresh "Hton" in
  let Htof := fresh "Htof" in
  let Htm := fresh "Htm" in
  let Hfm := fresh "Hfm" in
  let Hl := fresh "Hl" in
  pose proof (loop_machine_vars i g) as Hm;
  unfold machine_vars in Hm;
  injection Hm as Ha Hton Htof Htm Hfm Hl;
  rewrite ?Ha, ?Hton, ?Htof, ?Htm, ?Hfm, ?Hl;
  clear Ha Hton Htof Htm Hfm Hl.

Lemma timers_consistent_at_TON_check (i : cycle_input) (g : globals) :
  timers_consistent g = true ->
  timers_consistent (at_TON_check i g) = true.
Proof.
  intro H. open_pass. unfold timers_consistent at 1.
  by_cases g i H; reflexivity.
Qed.

Lemma timers_consistent_at_TOF_check (i : cycle_input) (g : globals) :
  timers_consistent g = true ->
  timers_consistent (at_TOF_check i g) = true.
Proof.
  intro H. open_pass. unfold timers_consistent at 1.
  by_cases g i H; reflexivity.
Qed.

Lemma timers_consistent_loop (i : cycle_input) (g : globals) :
  timers_consistent g = true ->
  timers_consistent (exec (loop i) g) = true.
Proof.
  intro H. unfold timers_consistent at 1. loop_to_core i g.
  open_pass. by_cases g i H; reflexivity.
Qed.

Lemma timers_consistent_reachable (b : boot_input) (l : list cycle_input) :
  timers_consistent (state_after b l) = true.
Proof.
  induction l as [|i l IH] using rev_ind.
  - unfold state_after, sketch. rewrite exec_seq, setup_exec. reflexivity.
  - rewrite state_after_snoc. apply timers_consistent_loop, IH.
Qed.

Lemma timers_consistent_exclusive (g : globals) :
  timers_consistent g = true -> TON_running g && TOF_running g = false.
Proof.
  unfold timers_consistent.
  destruct (TON_running g), (TOF_running g), (approved_alarm_state g),
    (last_state g); cbn; congruence.
Qed.

(** ** A notification needs a timer start of its own *)

Lemma TON_token_loop (i : cycle_input) (g : globals) (tok : bool) :
  implb (TON_running g) tok = true ->
  once_per_start is_TON_start is_EnteredAlarm tok (trace (loop i) g) = true
  /\ implb (TON_running (exec (loop i) g))
       (token_after is_TON_start is_EnteredAlarm tok (trace (loop i) g)) = true.
Proof.
  destruct (once_per_start_observe is_TON_start is_EnteredAlarm
              (trace (loop i) g) relevant_TON_start relevant_EnteredAlarm tok)
    as [-> ->].
  rewrite loop_observe. loop_to_core i g. open_pass.
  intro H. destruct tok; all_cases g i; try discriminate H;
    split; reflexivity.
Qed.

Lemma TOF_token_loop (i : cycle_input) (g : globals) (tok : bool) :
  implb (TOF_running g) tok = true ->
  once_per_start is_TOF_start is_ClearedAlarm tok (trace (loop i) g) = true
  /\ implb (TOF_running (exec (loop i) g))
       (token_after is_TOF_start is_ClearedAlarm tok (trace (loop i) g)) = true.
Proof.
  destruct (once_per_start_observe is_TOF_start is_ClearedAlarm
              (trace (loop i) g) relevant_TOF_start relevant_ClearedAlarm tok)
    as [-> ->].
  rewrite loop_observe. loop_to_core i g. open_pass.
  intro H. destruct tok; all_cases g i; try discriminate H;
    split; reflexivity.
Qed.

Section Tokens.

Variables start fire : effect -> bool.
Variable running : globals -> bool.

Hypothesis start_relevant : forall e, start e = true -> relevant e = true.
Hypothesis fire_relevant : forall e, fire e = true -> relevant e = true.
Hypothesis token_loop : forall i g tok,
  implb (running g) tok = true ->
  once_per_start start fire tok (trace (loop i) g) = true
  /\ implb (running (exec (loop i) g))
       (token_after start fire tok (trace (loop i) g)) = true.
Hypothesis idle_at_boot : forall b, running (exec (setup b) initial_globals) = false.

Lemma token_loops (l : list cycle_input) :
  forall g tok,
    implb (running g) tok = true ->
    once_per_start start fire tok (trace (loops l) g) = true.
Proof.
  induction l as [|i l IH]; intros g tok H; [reflexivity|].
  cbn [loops]. rewrite trace_seq, once_per_start_app.
  destruct (token_loop i g tok H) as [-> H'].
  cbn [andb]. apply IH, H'.
Qed.

Lemma token_run (b : boot_input) (l : list cycle_input) :
  once_per_start start fire false (trace_of b l) = true.
Proof.
  unfold trace_of, sketch. rewrite trace_seq, once_per_start_app.
  destruct (once_per_start_observe start fire (trace (setup b) initial_globals)
              start_relevant fire_relevant false) as [-> ->].
  rewrite setup_observe. cbn [once_per_start token_after andb].
  apply token_loops. rewrite idle_at_boot. reflexivity.
Qed.

End Tokens.

(** ** Elapsed time on the wrapping clock *)

Lemma usub_wrap (t0 t1 : Z) :
  0 <= t1 - t0 < ulong_modulus ->
  usub (wrap t1) (wrap t0) = t1 - t0.
Proof.
  intro H. unfold usub, wrap.
  rewrite <- Zminus_mod. apply Z.mod_small, H.
Qed.

Lemma last_cons_default {A : Type} (x d : A) (l : list A) :
  last (x :: l) d = last l x.
Proof.
  revert x d. induction l as [|y l IH]; intros x d; [reflexivity|].
  change (last (x :: y :: l) d) with (last (y :: l) d).
  rewrite !IH. reflexivity.
Qed.

(** ** The start markers and the stretches of the input *)

Lemma last_state_loop (i : cycle_input) (g : globals) :
  last_state (exec (loop i) g) = raw i.
Proof.
  loop_to_core i g. open_pass. all_cases g i; reflexivity.
Qed.

Lemma stretch_after_snoc (level : bool) (l : list cycle_input)
  (i : cycle_input) :
  forall prev start,
    stretch_after level prev start (l ++ [i])
    = stretch_start level (last (map raw l) prev)
        (stretch_after level prev start l) i.
Proof.
  induction l as [|j l IH]; intros prev start; [reflexivity|].
  cbn [app stretch_after map]. rewrite IH, last_cons_default. reflexivity.
Qed.

(** One pass keeps each running timer's marker at the clock reading its
    stretch is timed from: at both expiry checks and at the end of the pass. *)
Lemma markers_track_pass (i : cycle_input) (g : globals) (hi lo : option Z) :
  timers_consistent g = true ->
  (TON_running g = true ->
   exists s, hi = Some s /\ ton_start_marker g = wrap s) ->
  (TOF_running g = true ->
   exists s, lo = Some s /\ tof_start_marker g = wrap s) ->
  let hi' := stretch_start true (last_state g) hi i in
  let lo' := stretch_start false (last_state g) lo i in
  (TON_running (at_TON_check i g) = true ->
   exists s, hi' = Some s /\ ton_start_marker (at_TON_check i g) = wrap s)
  /\ (TOF_running (at_TOF_check i g) = true ->
      exists s, lo' = Some s /\ tof_start_marker (at_TOF_check i g) = wrap s)
  /\ (TON_running (exec (loop i) g) = true ->
      exists s, hi' = Some s /\ ton_start_marker (exec (loop i) g) = wrap s)
  /\ (TOF_running (exec (loop i) g) = true ->
      exists s, lo' = Some s /\ tof_start_marker (exec (loop i) g) = wrap s).
Proof.
  intros H Hhi Hlo hi' lo'. subst hi' lo'. unfold stretch_start.
  loop_to_core i g. open_pass.
  destruct g as [ls cl pl rs last new tonm tofm ton tof app].
  destruct i as [r tr tf tp tt ht tfp tft hf tl out].
  unfold timers_consistent in H. cbn in H, Hhi, Hlo.
  destruct last, ton, tof, app; try discriminate H; clear H;
    destruct r; cbn; split_ifs; repeat split; intros;
    try discriminate;
    try (eexists; split; reflexivity);
    try (apply Hhi; reflexivity); apply Hlo; reflexivity.
Qed.

Lemma markers_track_stretches (b : boot_input) (l : list cycle_input) :
  let g := state_after b l in
  last_state g = last (map raw l) (boot_raw b)
  /\ (TON_running g = true ->
      exists s, stretch_after true (boot_raw b) None l = Some s
                /\ ton_start_marker g = wrap s)
  /\ (TOF_running g = true ->
      exists s, stretch_after false (boot_raw b) None l = Some s
                /\ tof_start_marker g = wrap s).
Proof.
  induction l as [|i l IH] using rev_ind.
  - unfold state_after, sketch. rewrite exec_seq, setup_exec.
    cbn. repeat split; discriminate.
  - cbv zeta in IH. destruct IH as (Hl & Hhi & Hlo).
    cbv zeta. rewrite state_after_snoc, !stretch_after_snoc, map_app.
    cbn [map]. rewrite last_last, <- Hl.
    split; [apply last_state_loop|].
    destruct (markers_track_pass i _ _ _ (timers_consistent_reachable b l)
                Hhi Hlo) as (_ & _ & Hhi' & Hlo').
    split; assumption.
Qed.

Lemma markers_track_checks (b : boot_input) (l : list cycle_input)
  (i : cycle_input) :
  let g := state_after b l in
  (TON_running (at_TON_check i g) = true ->
   exists s, stretch_after true (boot_raw b) None (l ++ [i]) = Some s
             /\ ton_start_marker (at_TON_check i g) = wrap s)
  /\ (TOF_running (at_TOF_check i g) = true ->
      exists s, stretch_after false (boot_raw b) None (l ++ [i]) = Some s
                /\ tof_start_marker (at_TOF_check i g) = wrap s).
Proof.
  cbv zeta. destruct (markers_track_stretches b l) as (Hl & Hhi & Hlo).
  rewrite !stretch_after_snoc, <- Hl.
  destruct (markers_track_pass i _ _ _ (timers_consistent_reachable b l)
              Hhi Hlo) as (Hhi' & Hlo' & _ & _).
  split; assumption.
Qed.

(** ** The properties of the specification *)

(** The turn-on expiry of one pass, on the globals alone. *)
Lemma EnteredAlarm_expiry_pass (b : boot_input)
  (l : list cycle_input) (i : cycle_input) :
  let g := state_after b l in
  let m := at_TON_check i g in
  let g' := exec (loop i) g in
  let n := count is_EnteredAlarm (trace (loop i) g) in
  (n <= 1)%nat
  /\ (n = 1%nat <->
      TON_running m = true
      /\ ton_threshold <= usub (wrap (t_ton i)) (ton_start_marker m))
  /\ (n = 1%nat ->
      alarm_state m = Confirming /\ approved_alarm_state m = false
      /\ TON_running g' = false /\ approved_alarm_state g' = true
      /\ alarm_state g' = Armed)
  /\ once_per_start is_TON_start is_EnteredAlarm false (trace_of b l) = true.
Proof.
  intros g m g' n.
  assert (Hrun : once_per_start is_TON_start is_EnteredAlarm false
                   (trace_of b l) = true).
  { apply (token_run _ _ TON_running relevant_TON_start relevant_EnteredAlarm
             TON_token_loop).
    intro b0. rewrite setup_exec. reflexivity. }
  pose proof (timers_consistent_reachable b l) as H. fold g in H.
  revert Hrun. generalize (once_per_start is_TON_start is_EnteredAlarm false
                             (trace_of b l)). intros ok Hrun.
  subst n g' m. unfold alarm_state.
  rewrite (count_observe _ _ relevant_EnteredAlarm), loop_observe.
  loop_to_core i g. clearbody g. open_pass.
  by_cases g i H; repeat split; intros;
    repeat match goal with Hc : _ /\ _ |- _ => destruct Hc end;
    try discriminate; try reflexivity; try exact Hrun; lia.
Qed.

(** C1. On every run from boot, a pass of [loop] sends the
    "Pump-relay_circuit_OPEN!" notification at most once, and it sends it
    exactly when, at the expiry check of that pass, the turn-on timer is
    running and the elapsed time since the timer start is at least the
    turn-on threshold.  The machine is then Confirming (alarm not approved),
    and the pass ends Armed, with the turn-on timer stopped and the alarm
    approved.  Over the whole run every such notification has a turn-on timer
    start of its own before it.  The timer start is the pass that saw the
    input rise to its current high stretch: the start marker at the check is
    the clock reading of line 111 in that pass, the elapsed time is the
    [unsigned long] difference of the reading of line 144 and that reading,
    and, when less than the wrap-around period lies between the two, the
    reading of line 144 is at least the threshold later. *)
Theorem EnteredAlarm_only_on_turn_on_expiry (b : boot_input)
  (l : list cycle_input) (i : cycle_input) :
  let g := state_after b l in
  let m := at_TON_check i g in
  let g' := exec (loop i) g in
  let n := count is_EnteredAlarm (trace (loop i) g) in
  (n <= 1)%nat
  /\ (n = 1%nat <->
      TON_running m = true
      /\ ton_threshold <= usub (wrap (t_ton i)) (ton_start_marker m))
  /\ (n = 1%nat ->
      alarm_state m = Confirming /\ approved_alarm_state m = false
      /\ TON_running g' = false /\ approved_alarm_state g' = true
      /\ alarm_state g' = Armed)
  /\ once_per_start is_TON_start is_EnteredAlarm false (trace_of b l) = true
  /\ (n = 1%nat ->
      exists s,
        stretch_after true (boot_raw b) None (l ++ [i]) = Some s
        /\ ton_start_marker m = wrap s
        /\ ton_threshold <= usub (wrap (t_ton i)) (wrap s)
        /\ (0 <= t_ton i - s < ulong_modulus -> ton_threshold <= t_ton i - s)).
Proof.
  intros g m g' n.
  destruct (EnteredAlarm_expiry_pass b l i) as (Hle & Hiff & Himp & Hrun).
  fold g m g' n in Hle, Hiff, Himp.
  split; [exact Hle|]. split; [exact Hiff|]. split; [exact Himp|].
  split; [exact Hrun|].
  intro Hn. destruct (proj1 Hiff Hn) as [Hr Hthr].
  destruct (markers_track_checks b l i) as [Hhi _].
  destruct (Hhi Hr) as (s & Hs & Hm). fold g m in Hm.
  exists s. rewrite Hm in Hthr.
  split; [exact Hs|]. split; [exact Hm|]. split; [exact Hthr|].
  intro Hb. rewrite (usub_wrap s (t_ton i) Hb) in Hthr. exact Hthr.
Qed.

(** Scenario C of the specification, from any Armed state the invariant
    allows. *)
Lemma ClearedAlarm_after_held_low (g : globals) :
  timers_consistent g = true ->
  alarm_state g = Armed ->
  let g1 := exec (loop (tick false 0)) g in
  let g2 := exec (loop (tick false 1600)) g1 in
  count is_ClearedAlarm (trace (loop (tick false 0)) g) = 0%nat
  /\ alarm_state g1 = Clearing
  /\ count is_ClearedAlarm (trace (loop (tick false 1600)) g1) = 1%nat
  /\ alarm_state g2 = Cleared.
Proof.
  intros H Harm g1 g2.
  assert (H1 : machine_vars g1
               = (true, false, true, ton_start_marker g, wrap 0, false)
               /\ count is_ClearedAlarm (trace (loop (tick false 0)) g) = 0%nat).
  { subst g1.
    rewrite (count_observe _ _ relevant_ClearedAlarm), loop_observe.
    rewrite loop_machine_vars. open_pass. revert Harm. unfold alarm_state.
    destruct g as [ls cl pl rs last new tonm tofm ton tof app].
    unfold timers_consistent in H. cbn in H. cbn.
    destruct last, ton, tof, app; try discriminate H; try discriminate;
      intros _; split; reflexivity. }
  destruct H1 as [H1 H0]. split; [exact H0|].
  subst g2. clearbody g1. clear H0 H Harm.
  unfold alarm_state.
  rewrite (count_observe _ _ relevant_ClearedAlarm), loop_observe.
  loop_to_core (tick false 1600) g1. open_pass.
  destruct g1 as [ls cl pl rs last new tonm tofm ton tof app].
  cbn in H1. injection H1 as -> -> -> _ -> ->.
  repeat split.
Qed.

(** The turn-off expiry of one pass, on the globals alone. *)
Lemma ClearedAlarm_expiry_pass (b : boot_input)
  (l : list cycle_input) (i : cycle_input) :
  let g := state_after b l in
  let m := at_TOF_check i g in
  let g' := exec (loop i) g in
  let n := count is_ClearedAlarm (trace (loop i) g) in
  (n <= 1)%nat
  /\ (n = 1%nat <->
      TOF_running m = true
      /\ tof_threshold <= usub (wrap (t_tof i)) (tof_start_marker m))
  /\ (n = 1%nat ->
      alarm_state m = Clearing /\ approved_alarm_state m = true
      /\ TOF_running g' = false /\ approved_alarm_state g' = false
      /\ alarm_state g' = Cleared)
  /\ once_per_start is_TOF_start is_ClearedAlarm false (trace_of b l) = true.
Proof.
  intros g m g' n.
  assert (Hrun : once_per_start is_TOF_start is_ClearedAlarm false
                   (trace_of b l) = true).
  { apply (token_run _ _ TOF_running relevant_TOF_start relevant_ClearedAlarm
             TOF_token_loop).
    intro b0. rewrite setup_exec. reflexivity. }
  pose proof (timers_consistent_reachable b l) as H. fold g in H.
  split; [|split; [|split; [|exact Hrun]]];
    clear Hrun; subst n g' m; unfold alarm_state;
    rewrite (count_observe _ _ relevant_ClearedAlarm), loop_observe;
    loop_to_core i g; clearbody g; open_pass;
    by_cases g i H; repeat split; intros;
    repeat match goal with Hc : _ /\ _ |- _ => destruct Hc end;
    try discriminate; try reflexivity; lia.
Qed.

(** C2. On every run from boot, a pass of [loop] sends the
    "Pump-relay_circuit_CLOSED_OK!" notification at most once, and it sends it
    exactly when, at the expiry check of that pass, the turn-off timer is
    running and the elapsed time since the timer start is at least the
    turn-off threshold.  The machine is then Clearing (alarm approved), and
    the pass ends Cleared, with the turn-off timer stopped and the alarm no
    longer approved.  Over the whole run every such notification has a
    turn-off timer start of its own before it.  Scenario C: from Armed, a
    low sample at time 0 held until time 1600 sends the notification once, in
    the second pass, and leaves the machine Cleared.  The timer start is the
    pass that saw the input fall to its current low stretch: the start marker
    at the check is the clock reading of line 127 in that pass, the elapsed
    time is the [unsigned long] difference of the reading of line 158 and
    that reading, and, when less than the wrap-around period lies between the
    two, the reading of line 158 is at least the threshold later. *)
Theorem ClearedAlarm_only_on_turn_off_expiry (b : boot_input)
  (l : list cycle_input) (i : cycle_input) :
  let g := state_after b l in
  let m := at_TOF_check i g in
  let g' := exec (loop i) g in
  let n := count is_ClearedAlarm (trace (loop i) g) in
  (n <= 1)%nat
  /\ (n = 1%nat <->
      TOF_running m = true
      /\ tof_threshold <= usub (wrap (t_tof i)) (tof_start_marker m))
  /\ (n = 1%nat ->
      alarm_state m = Clearing /\ approved_alarm_state m = true
      /\ TOF_running g' = false /\ approved_alarm_state g' = false
      /\ alarm_state g' = Cleared)
  /\ once_per_start is_TOF_start is_ClearedAlarm false (trace_of b l) = true
  /\ (alarm_state g = Armed ->
      let g1 := exec (loop (tick false 0)) g in
      let g2 := exec (loop (tick false 1600)) g1 in
      count is_ClearedAlarm (trace (loop (tick false 0)) g) = 0%nat
      /\ alarm_state g1 = Clearing
      /\ count is_ClearedAlarm (trace (loop (tick false 1600)) g1) = 1%nat
      /\ alarm_state g2 = Cleared)
  /\ (n = 1%nat ->
      exists s,
        stretch_after false (boot_raw b) None (l ++ [i]) = Some s
        /\ tof_start_marker m = wrap s
        /\ tof_threshold <= usub (wrap (t_tof i)) (wrap s)
        /\ (0 <= t_tof i - s < ulong_modulus -> tof_threshold <= t_tof i - s)).
Proof.
  intros g m g' n.
  destruct (ClearedAlarm_expiry_pass b l i) as (Hle & Hiff & Himp & Hrun).
  fold g m g' n in Hle, Hiff, Himp.
  pose proof (ClearedAlarm_after_held_low g
                (timers_consistent_reachable b l)) as HC.
  split; [exact Hle|]. split; [exact Hiff|]. split; [exact Himp|].
  split; [exact Hrun|]. split; [exact HC|].
  intro Hn. destruct (proj1 Hiff Hn) as [Hr Hthr].
  destruct (markers_track_checks b l i) as [_ Hlo].
  destruct (Hlo Hr) as (s & Hs & Hm). fold g m in Hm.
  exists s. rewrite Hm in Hthr.
  split; [exact Hs|]. split; [exact Hm|]. split; [exact Hthr|].
  intro Hb. rewrite (usub_wrap s (t_tof i) Hb) in Hthr. exact Hthr.
Qed.

(** C3. Timer mutual exclusion: on every run from boot, the turn-on and the
    turn-off timer are never both running; not between two passes of [loop],
    and not inside a pass either, at the turn-on check, at the turn-off check
    and at the end of the pass. *)
Theorem timers_mutually_exclusive (b : boot_input) (l : list cycle_input)
  (i : cycle_input) :
  let g := state_after b l in
  TON_running initial_globals && TOF_running initial_globals = false
  /\ TON_running g && TOF_running g = false
  /\ TON_running (at_TON_check i g) && TOF_running (at_TON_check i g) = false
  /\ TON_running (at_TOF_check i g) && TOF_running (at_TOF_check i g) = false
  /\ TON_running (exec (loop i) g) && TOF_running (exec (loop i) g) = false.
Proof.
  intro g. pose proof (timers_consistent_reachable b l) as H. fold g in H.
  split; [reflexivity|].
  repeat split; apply timers_consistent_exclusive.
  - exact H.
  - apply timers_consistent_at_TON_check, H.
  - apply timers_consistent_at_TOF_check, H.
  - apply timers_consistent_loop, H.
Qed.

(** ** The GETs of a pass *)

Lemma gets_of_app (tr1 tr2 : list effect) :
  gets_of (tr1 ++ tr2) = gets_of tr1 ++ gets_of tr2.
Proof. apply filter_app. Qed.

Lemma sample_and_detect_gets (i : cycle_input) (g : globals) :
  gets_of (trace (sample_and_detect i) g) = [].
Proof.
  destruct g as [ls cl pl rs last new tonm tofm ton tof app].
  destruct i as [r tr tf tp tt ht tfp tft hf tl out].
  destruct r, last, app; reflexivity.
Qed.

Lemma TON_implementation_gets (i : cycle_input) (g : globals) :
  gets_of (trace (TON_implementation i) g)
  = if TON_expired i g then [EnteredAlarm] else [].
Proof.
  destruct g as [ls cl pl rs last new tonm tofm ton tof app].
  destruct i as [r tr tf tp tt ht tfp tft hf tl out].
  unfold TON_expired. destruct ton; [|reflexivity].
  unfold_sketch. cbn.
  destruct (ton_threshold <=? usub (wrap tt) tonm); [|reflexivity].
  cbn. destruct (ht =? 200); reflexivity.
Qed.

Lemma TOF_implementation_gets (i : cycle_input) (g : globals) :
  gets_of (trace (TOF_implementation i) g)
  = if TOF_expired i g then [ClearedAlarm] else [].
Proof.
  destruct g as [ls cl pl rs last new tonm tofm ton tof app].
  destruct i as [r tr tf tp tt ht tfp tft hf tl out].
  unfold TOF_expired. destruct tof; [|reflexivity].
  unfold_sketch. cbn.
  destruct (tof_threshold <=? usub (wrap tft) tofm); [|reflexivity].
  cbn. destruct (hf =? 200); reflexivity.
Qed.

Lemma loop_gets (i : cycle_input) (g : globals) :
  gets_of (trace (loop i) g)
  = (if TON_expired i (at_TON_check i g) then [EnteredAlarm] else [])
    ++ (if TOF_expired i (at_TOF_check i g) then [ClearedAlarm] else [])
    ++ gets_of (trace (wifi_check (outages i)) g).
Proof.
  unfold loop, indicate_and_pace.
  rewrite !trace_seq, !gets_of_app, toggle_inbuilt_led_fast_trace.
  rewrite sample_and_detect_gets, TON_implementation_gets,
    TOF_implementation_gets, at_TOF_check_eq.
  rewrite (wifi_check_trace_indep _ _ g). cbn [app].
  unfold at_TON_check. rewrite app_nil_r. reflexivity.
Qed.

(** C4. Cancellation: on every run from boot, when a pass starts with a timer
    pending and its sample differs from the last one, the pass stops that
    timer, starts none, leaves the approved alarm state as it was (the
    machine is back in Cleared from Confirming, in Armed from Clearing), and
    sends neither notification: the only GETs of the pass are those of a
    reconnection. *)
Theorem flip_back_cancels_pending_timer (b : boot_input)
  (l : list cycle_input) (i : cycle_input) :
  let g := state_after b l in
  let g' := exec (loop i) g in
  raw i <> last_state g ->
  (TON_running g = true \/ TOF_running g = true) ->
  TON_running g' = false /\ TOF_running g' = false
  /\ approved_alarm_state g' = approved_alarm_state g
  /\ (TON_running g = true ->
      alarm_state g = Confirming /\ alarm_state g' = Cleared)
  /\ (TOF_running g = true ->
      alarm_state g = Clearing /\ alarm_state g' = Armed)
  /\ count is_EnteredAlarm (trace (loop i) g) = 0%nat
  /\ count is_ClearedAlarm (trace (loop i) g) = 0%nat
  /\ gets_of (trace (loop i) g) = gets_of (trace (wifi_check (outages i)) g).
Proof.
  intros g g'.
  pose proof (timers_consistent_reachable b l) as H. fold g in H.
  subst g'. unfold alarm_state.
  rewrite (count_observe _ _ relevant_EnteredAlarm),
    (count_observe _ _ relevant_ClearedAlarm), loop_observe, loop_gets.
  loop_to_core i g. clearbody g.
  generalize (gets_of (trace (wifi_check (outages i)) g)). intro gs.
  open_pass.
  by_cases g i H; intros Hne Hor; try (exfalso; apply Hne; reflexivity);
    try (destruct Hor; discriminate);
    repeat split; intros; try discriminate; reflexivity.
Qed.

(** ** The indicator *)

Lemma at_LED_step_eq (i : cycle_input) (g : globals) :
  at_LED_step i g = exec (TOF_implementation i) (at_TOF_check i g).
Proof.
  unfold at_LED_step. rewrite !exec_seq, at_TOF_check_eq. reflexivity.
Qed.

Lemma timers_consistent_at_LED_step (i : cycle_input) (g : globals) :
  timers_consistent g = true ->
  timers_consistent (at_LED_step i g) = true.
Proof.
  intro H. rewrite at_LED_step_eq. open_pass. unfold timers_consistent at 1.
  by_cases g i H; reflexivity.
Qed.

Lemma approved_iff_Armed_or_Clearing (g : globals) :
  timers_consistent g = true ->
  (approved_alarm_state g = true
   <-> alarm_state g = Armed \/ alarm_state g = Clearing)
  /\ (approved_alarm_state g = false
      <-> alarm_state g = Cleared \/ alarm_state g = Confirming).
Proof.
  unfold timers_consistent, alarm_state.
  destruct (TON_running g), (TOF_running g), (approved_alarm_state g),
    (last_state g); cbn; intro H; try discriminate H;
    repeat split; intros; try reflexivity; try discriminate;
    try (left; reflexivity); try (right; reflexivity);
    repeat match goal with Hc : _ \/ _ |- _ => destruct Hc end;
    discriminate.
Qed.

Lemma inverted_differs (level : Z) : inverted level <> level.
Proof.
  unfold inverted, LOW, HIGH. destruct (Z.eqb_spec level 0); lia.
Qed.

(** Counterexample to C5 as the specification states it: on the run that rises at 0, is confirmed at
    1800 and falls at 2000, the machine is Clearing from then on, and the LED
    is written HIGH at 2000, LOW at 2100 and HIGH at 2200: it blinks. *)
Lemma indicator_blinks_while_Clearing :
  let b := mkBoot 0 200 false 200 in
  let g0 := state_after b [tick true 0; tick true 1800; tick false 2000] in
  let g1 := exec (loop (tick false 2100)) g0 in
  let g2 := exec (loop (tick false 2200)) g1 in
  (alarm_state g0 = Clearing /\ alarm_state g1 = Clearing
   /\ alarm_state g2 = Clearing)
  /\ (led_state g0 = HIGH /\ led_state g1 = LOW /\ led_state g2 = HIGH)
  /\ ~ (forall b' l i,
        let s := at_LED_step i (state_after b' l) in
        alarm_state s <> Armed ->
        led_state (exec (toggle_inbuilt_led_fast (t_led i)) s) = led_state s).
Proof.
  cbv zeta. split; [|split].
  - vm_compute. repeat split.
  - vm_compute. repeat split.
  - intro Hall.
    specialize (Hall (mkBoot 0 200 false 200)
      [tick true 0; tick true 1800; tick false 2000] (tick false 2100)).
    vm_compute in Hall. specialize (Hall ltac:(discriminate)). discriminate Hall.
Qed.

(** C5, amended. At the LED step of every pass of every run from boot, the
    indicator depends on the approved alarm flag: when the flag is set, which
    is so exactly in Armed and in Clearing, the LED is inverted whenever the
    blink interval has elapsed since its last inversion and is left alone
    otherwise; when the flag is not set, which is so exactly in Cleared and
    in Confirming, the LED is held HIGH.  The level written to the pin is the
    resulting [led_state]. *)
Theorem indicator_blinks_iff_alarm_approved (b : boot_input)
  (l : list cycle_input) (i : cycle_input) :
  let s := at_LED_step i (state_after b l) in
  let s' := exec (toggle_inbuilt_led_fast (t_led i)) s in
  let elapsed := usub (wrap (t_led i)) (previous_led_millis s) in
  (approved_alarm_state s = true
   <-> alarm_state s = Armed \/ alarm_state s = Clearing)
  /\ (approved_alarm_state s = false
      <-> alarm_state s = Cleared \/ alarm_state s = Confirming)
  /\ (approved_alarm_state s = true -> led_interval <= elapsed ->
      led_state s' = inverted (led_state s) /\ led_state s' <> led_state s
      /\ previous_led_millis s' = wrap (t_led i))
  /\ (approved_alarm_state s = true -> elapsed < led_interval ->
      led_state s' = led_state s
      /\ previous_led_millis s' = previous_led_millis s)
  /\ (approved_alarm_state s = false -> led_state s' = HIGH)
  /\ trace (toggle_inbuilt_led_fast (t_led i)) s = [LedWrite (led_state s')].
Proof.
  intros s s' elapsed.
  assert (H : timers_consistent s = true)
    by apply timers_consistent_at_LED_step, timers_consistent_reachable.
  destruct (approved_iff_Armed_or_Clearing s H) as [Ha Hn].
  split; [exact Ha|]. split; [exact Hn|].
  subst s' elapsed. clearbody s. clear Ha Hn H.
  rewrite toggle_inbuilt_led_fast_trace, toggle_inbuilt_led_fast_exec.
  destruct (approved_alarm_state s); cbv zeta.
  - destruct (Z.leb_spec led_interval
                (usub (wrap (t_led i)) (previous_led_millis s))) as [Hle|Hlt];
      repeat split; intros; try discriminate; try reflexivity; try lia.
    cbn. apply inverted_differs.
  - repeat split; intros; try discriminate; reflexivity.
Qed.

(** C6. Idempotence of the stable states: a pass that starts Armed or
    Cleared (no timer running) and samples the value sampled last leaves the
    approved flag, both running flags, both start markers and the last
    sample as they were, and sends neither notification: the only GETs of the
    pass are those of a reconnection. *)
Theorem stable_state_pass_changes_nothing (g : globals) (i : cycle_input) :
  alarm_state g = Armed \/ alarm_state g = Cleared ->
  raw i = last_state g ->
  machine_vars (exec (loop i) g) = machine_vars g
  /\ alarm_state (exec (loop i) g) = alarm_state g
  /\ count is_EnteredAlarm (trace (loop i) g) = 0%nat
  /\ count is_ClearedAlarm (trace (loop i) g) = 0%nat
  /\ gets_of (trace (loop i) g) = gets_of (trace (wifi_check (outages i)) g).
Proof.
  unfold alarm_state.
  rewrite (count_observe _ _ relevant_EnteredAlarm),
    (count_observe _ _ relevant_ClearedAlarm), loop_observe, loop_gets.
  loop_to_core i g. rewrite loop_machine_vars.
  generalize (gets_of (trace (wifi_check (outages i)) g)). intro gs.
  open_pass. unfold machine_vars.
  all_cases g i; intros Hst Heq; try discriminate Heq;
    try (destruct Hst; discriminate);
    repeat split.
Qed.

(** ** Failed sends *)

Lemma loop_trace_parts (i : cycle_input) (g : globals) :
  trace (loop i) g
  = trace (sample_and_detect i) g
    ++ trace (TON_implementation i) (at_TON_check i g)
    ++ trace (TOF_implementation i) (at_TOF_check i g)
    ++ trace (indicate_and_pace i) (at_LED_step i g).
Proof.
  unfold loop. rewrite !trace_seq, at_LED_step_eq, at_TOF_check_eq.
  reflexivity.
Qed.

Lemma TON_failure_logged (i : cycle_input) (g : globals) :
  TON_expired i g = true -> http_ton i <> 200 ->
  In (Println "Failed") (trace (TON_implementation i) g)
  /\ response (exec (TON_implementation i) g) = http_ton i.
Proof.
  rewrite TON_implementation_exec.
  destruct g as [ls cl pl rs last new tonm tofm ton tof app].
  destruct i as [r tr tf tp tt ht tfp tft hf tl out].
  unfold TON_expired. cbn. intros Hexp Hne.
  apply Z.eqb_neq in Hne.
  destruct ton; [|discriminate Hexp]. cbn in Hexp. rewrite Hexp.
  split; [|reflexivity].
  unfold_sketch. cbn. rewrite Hexp. cbn. rewrite Hne. cbn. tauto.
Qed.

Lemma TOF_failure_logged (i : cycle_input) (g : globals) :
  TOF_expired i g = true -> http_tof i <> 200 ->
  In (Println "Failed") (trace (TOF_implementation i) g)
  /\ response (exec (TOF_implementation i) g) = http_tof i.
Proof.
  rewrite TOF_implementation_exec.
  destruct g as [ls cl pl rs last new tonm tofm ton tof app].
  destruct i as [r tr tf tp tt ht tfp tft hf tl out].
  unfold TOF_expired. cbn. intros Hexp Hne.
  apply Z.eqb_neq in Hne.
  destruct tof; [|discriminate Hexp]. cbn in Hexp. rewrite Hexp.
  split; [|reflexivity].
  unfold_sketch. cbn. rewrite Hexp. cbn. rewrite Hne. cbn. tauto.
Qed.

(** C7. A failed send is only logged.  Whatever status codes the two
    notifications of a pass get, the pass leaves the same approved flag,
    running flags, start markers and last sample, and issues the same GETs,
    each notification at most once: no send is repeated.  When a
    notification is sent and its status is not 200, the pass prints
    "Failed". *)
Theorem failed_send_is_only_logged (g : globals) (i : cycle_input)
  (c_ton c_tof : Z) :
  let i' := with_http_codes c_ton c_tof i in
  machine_vars (exec (loop i') g) = machine_vars (exec (loop i) g)
  /\ gets_of (trace (loop i') g) = gets_of (trace (loop i) g)
  /\ (count is_EnteredAlarm (trace (loop i') g) <= 1)%nat
  /\ (count is_ClearedAlarm (trace (loop i') g) <= 1)%nat
  /\ (count is_EnteredAlarm (trace (loop i') g) = 1%nat -> c_ton <> 200 ->
      In (Println "Failed") (trace (loop i') g))
  /\ (count is_ClearedAlarm (trace (loop i') g) = 1%nat -> c_tof <> 200 ->
      In (Println "Failed") (trace (loop i') g)).
Proof.
  intro i'.
  assert (Hout : outages i' = outages i) by reflexivity.
  split; [|split; [|split; [|split; [|split]]]].
  - subst i'. rewrite !loop_machine_vars. open_pass. unfold machine_vars.
    all_cases g i; reflexivity.
  - rewrite !loop_gets, Hout.
    generalize (gets_of (trace (wifi_check (outages i)) g)). intro gs.
    subst i'. open_pass. all_cases g i; reflexivity.
  - rewrite (count_observe _ _ relevant_EnteredAlarm), loop_observe.
    subst i'. open_pass. all_cases g i; lia.
  - rewrite (count_observe _ _ relevant_ClearedAlarm), loop_observe.
    subst i'. open_pass. all_cases g i; lia.
  - intros Hn Hne. rewrite loop_trace_parts.
    apply in_or_app. right. apply in_or_app. left.
    apply TON_failure_logged; [|exact Hne].
    revert Hn. rewrite (count_observe _ _ relevant_EnteredAlarm), loop_observe.
    rewrite TON_implementation_observe, TOF_implementation_observe,
      sample_and_detect_observe.
    destruct (TON_expired i' (at_TON_check i' g)); [reflexivity|].
    destruct (TOF_expired i' (at_TOF_check i' g));
      destruct (Bool.eqb (raw i') (last_state g)), (raw i'),
        (approved_alarm_state g); cbn; discriminate.
  - intros Hn Hne. rewrite loop_trace_parts.
    apply in_or_app. right. apply in_or_app. right. apply in_or_app. left.
    apply TOF_failure_logged; [|exact Hne].
    revert Hn. rewrite (count_observe _ _ relevant_ClearedAlarm), loop_observe.
    rewrite TON_implementation_observe, TOF_implementation_observe,
      sample_and_detect_observe.
    destruct (TOF_expired i' (at_TOF_check i' g)); [reflexivity|].
    destruct (TON_expired i' (at_TON_check i' g));
      destruct (Bool.eqb (raw i') (last_state g)), (raw i'),
        (approved_alarm_state g); cbn; discriminate.
Qed.

(** C8. Frame condition of the reconnection path: [connect_to_wifi] changes
    no global but [response], and neither does the reconnection loop of
    [loop]; the approved flag, both running flags, both start markers and the
    last sample are the same before and after, however long the outage and
    however often it recurs.  The reconnection starts no timer and sends
    neither alarm notification, a pass leaves the same machine variables with
    and without an outage, and the expiry conditions of a later pass read the
    same start markers as before the outage. *)
Theorem reconnection_leaves_machine_alone (g : globals) (polls : nat)
  (c : Z) (l : list (nat * Z)) (i j : cycle_input) :
  exec (connect_to_wifi polls c) g = set_response c g
  /\ machine_vars (exec (connect_to_wifi polls c) g) = machine_vars g
  /\ exec (wifi_check l) g = set_response (wifi_response l (response g)) g
  /\ machine_vars (exec (wifi_check l) g) = machine_vars g
  /\ observe (trace (wifi_check l) g) = []
  /\ machine_vars (exec (loop (with_outages l i)) g)
     = machine_vars (exec (loop i) g)
  /\ TON_expired j (exec (wifi_check l) g) = TON_expired j g
  /\ TOF_expired j (exec (wifi_check l) g) = TOF_expired j g.
Proof.
  rewrite wifi_check_exec, connect_to_wifi_exec.
  repeat split.
  - apply observe_wifi_check.
  - rewrite !loop_machine_vars. open_pass.
    destruct i as [r tr tf tp tt ht tfp tft hf tl out]. reflexivity.
Qed.

(** ** Elapsed time *)

(** C9. The elapsed time of both timers is the [unsigned long] difference
    of the clock reading and the start marker.  When the timer was started at
    time [t0] and is checked at time [t1], with less than the wrap-around
    period between them, that difference is [t1 - t0] even if the clock has
    overflowed in between, so the turn-on (turn-off) notification is sent at
    that check exactly when [t1 - t0] has reached the threshold.  The marker
    an edge stores is the clock reading of that edge as an [unsigned long]. *)
Theorem elapsed_time_survives_clock_overflow (t0 t1 : Z) (i : cycle_input)
  (g : globals) :
  0 <= t1 - t0 < ulong_modulus ->
  usub (wrap t1) (wrap t0) = t1 - t0
  /\ (TON_running g = true -> ton_start_marker g = wrap t0 -> t_ton i = t1 ->
      TON_expired i g = (ton_threshold <=? t1 - t0)
      /\ count is_EnteredAlarm (trace (TON_implementation i) g)
         = if ton_threshold <=? t1 - t0 then 1%nat else 0%nat)
  /\ (TOF_running g = true -> tof_start_marker g = wrap t0 -> t_tof i = t1 ->
      TOF_expired i g = (tof_threshold <=? t1 - t0)
      /\ count is_ClearedAlarm (trace (TOF_implementation i) g)
         = if tof_threshold <=? t1 - t0 then 1%nat else 0%nat)
  /\ (raw i = true -> last_state g = false -> approved_alarm_state g = false ->
      TON_running (at_TON_check i g) = true
      /\ ton_start_marker (at_TON_check i g) = wrap (t_rise i))
  /\ (raw i = false -> last_state g = true -> approved_alarm_state g = true ->
      TOF_running (at_TON_check i g) = true
      /\ tof_start_marker (at_TON_check i g) = wrap (t_fall i)).
Proof.
  intro H. pose proof (usub_wrap t0 t1 H) as Hu.
  split; [exact Hu|]. split; [|split; [|split]].
  - intros Hr Hm Ht.
    assert (He : TON_expired i g = (ton_threshold <=? t1 - t0)).
    { unfold TON_expired. rewrite Hr, Hm, Ht, Hu. reflexivity. }
    split; [exact He|].
    rewrite (count_observe _ _ relevant_EnteredAlarm),
      TON_implementation_observe, He.
    destruct (ton_threshold <=? t1 - t0); reflexivity.
  - intros Hr Hm Ht.
    assert (He : TOF_expired i g = (tof_threshold <=? t1 - t0)).
    { unfold TOF_expired. rewrite Hr, Hm, Ht, Hu. reflexivity. }
    split; [exact He|].
    rewrite (count_observe _ _ relevant_ClearedAlarm),
      TOF_implementation_observe, He.
    destruct (tof_threshold <=? t1 - t0); reflexivity.
  - intros Hr Hl Ha. rewrite sample_and_detect_exec, Hr, Hl, Ha.
    split; reflexivity.
  - intros Hr Hl Ha. rewrite sample_and_detect_exec, Hr, Hl, Ha.
    split; reflexivity.
Qed.

(** ** A level that is high at boot *)

Lemma idle_pass (i : cycle_input) (g : globals) :
  TON_running g = false -> TOF_running g = false ->
  approved_alarm_state g = false ->
  negb (negb (last_state g) && raw i) = true ->
  let g' := exec (loop i) g in
  (TON_running g' = false /\ TOF_running g' = false
   /\ approved_alarm_state g' = false /\ last_state g' = raw i)
  /\ observe (trace (loop i) g) = [].
Proof.
  intros Hn Hf Ha Hr g'. subst g'.
  rewrite loop_observe. loop_to_core i g. open_pass.
  revert Hn Hf Ha Hr.
  all_cases g i; intros; try discriminate; repeat split.
Qed.

Lemma idle_loops (l : list cycle_input) :
  forall g,
    TON_running g = false -> TOF_running g = false ->
    approved_alarm_state g = false ->
    no_rising_edge (last_state g) (map raw l) = true ->
    let g' := exec (loops l) g in
    (TON_running g' = false /\ TOF_running g' = false
     /\ approved_alarm_state g' = false)
    /\ observe (trace (loops l) g) = [].
Proof.
  induction l as [|i l IH]; intros g Hn Hf Ha Hr; [repeat split; assumption|].
  cbn [map no_rising_edge] in Hr. apply andb_true_iff in Hr as [Hi Hr].
  destruct (idle_pass i g Hn Hf Ha Hi) as [(Hn' & Hf' & Ha' & Hl') Ho].
  rewrite <- Hl' in Hr.
  destruct (IH _ Hn' Hf' Ha' Hr) as [Hflags Ho'].
  cbn [loops]. rewrite exec_seq, trace_seq, observe_app, Ho, Ho'.
  split; [exact Hflags | reflexivity].
Qed.

(** C10. Startup with the input already high: [setup] leaves the last sample
    true with the alarm not approved and no timer running.  As long as the
    samples never go from low to high after that (the level is held, or
    falls and stays low), no pass starts the turn-on timer and none sends the
    "Pump-relay_circuit_OPEN!" notification, however many passes there are
    and whatever the clock reads; the machine stays Cleared. *)
Theorem high_at_boot_never_arms (b : boot_input) (l : list cycle_input) :
  boot_raw b = true ->
  no_rising_edge true (map raw l) = true ->
  let g0 := state_after b [] in
  let g := state_after b l in
  (last_state g0 = true /\ approved_alarm_state g0 = false
   /\ TON_running g0 = false /\ TOF_running g0 = false)
  /\ (TON_running g = false /\ TOF_running g = false
      /\ approved_alarm_state g = false /\ alarm_state g = Cleared)
  /\ count is_TON_start (trace_of b l) = 0%nat
  /\ count is_EnteredAlarm (trace_of b l) = 0%nat.
Proof.
  intros Hb Hr g0 g.
  assert (H0 : last_state g0 = true /\ approved_alarm_state g0 = false
               /\ TON_running g0 = false /\ TOF_running g0 = false).
  { subst g0. unfold state_after, sketch. rewrite exec_seq, setup_exec.
    cbn. rewrite Hb. repeat split. }
  split; [exact H0|].
  assert (Hs : exec (setup b) initial_globals = g0).
  { subst g0. unfold state_after, sketch. rewrite exec_seq. reflexivity. }
  destruct H0 as (Hl & Ha & Hn & Hf).
  assert (Hr' : no_rising_edge (last_state g0) (map raw l) = true)
    by (rewrite Hl; exact Hr).
  destruct (idle_loops l g0 Hn Hf Ha Hr') as [(Hn' & Hf' & Ha') Ho].
  assert (Hg : g = exec (loops l) g0).
  { subst g. unfold state_after, sketch. rewrite exec_seq, Hs. reflexivity. }
  assert (Hobs : observe (trace_of b l) = []).
  { unfold trace_of, sketch.
    rewrite trace_seq, observe_app, setup_observe, Hs, Ho. reflexivity. }
  rewrite (count_observe _ _ relevant_TON_start),
    (count_observe _ _ relevant_EnteredAlarm), Hobs.
  unfold alarm_state. rewrite Hg, Hn', Hf', Ha'. repeat split.
Qed.

(** ** The properties on concrete runs *)

(** Scenario A: a rise at 0 held until 1800 is confirmed in the pass at
    1800, 1800 ms after the reading of line 111 in the pass that saw it
    rise. *)
Lemma EnteredAlarm_only_on_turn_on_expiry_witness :
  let b := mkBoot 0 200 false 200 in
  let g := state_after b [tick true 0] in
  let i := tick true 1800 in
  (TON_running (at_TON_check i g) = true
   /\ ton_threshold <= usub (wrap (t_ton i)) (ton_start_marker (at_TON_check i g)))
  /\ count is_EnteredAlarm (trace (loop i) g) = 1%nat
  /\ alarm_state (at_TON_check i g) = Confirming
  /\ alarm_state (exec (loop i) g) = Armed
  /\ stretch_after true (boot_raw b) None ([tick true 0] ++ [i]) = Some 0
  /\ ton_threshold <= t_ton i - 0.
Proof.
  cbv zeta.
  pose proof (EnteredAlarm_only_on_turn_on_expiry (mkBoot 0 200 false 200)
                [tick true 0] (tick true 1800)) as H.
  cbv zeta in H. destruct H as (_ & Hiff & Himp & _ & Hstart).
  assert (Hpre : TON_running
                   (at_TON_check (tick true 1800)
                      (state_after (mkBoot 0 200 false 200) [tick true 0])) = true
                 /\ ton_threshold
                    <= usub (wrap (t_ton (tick true 1800)))
                         (ton_start_marker
                            (at_TON_check (tick true 1800)
                               (state_after (mkBoot 0 200 false 200)
                                  [tick true 0])))).
  { split; [reflexivity | vm_compute; discriminate]. }
  split; [exact Hpre|].
  pose proof (proj2 Hiff Hpre) as Hn.
  destruct (Himp Hn) as (Hc & _ & _ & _ & Harmed).
  destruct (Hstart Hn) as (s & Hs & _ & _ & Htrue).
  assert (Hs0 : s = 0)
    by (vm_compute in Hs; injection Hs as <-; reflexivity).
  subst s.
  assert (Hb : 0 <= t_ton (tick true 1800) - 0 < ulong_modulus)
    by (vm_compute; split; [discriminate | reflexivity]).
  split; [exact Hn|]. split; [exact Hc|]. split; [exact Harmed|].
  split; [exact Hs | exact (Htrue Hb)].
Defined.

(** Scenario C on a run from boot: armed at 1800, low from 2000, cleared in
    the pass at 3600, 1600 ms after the reading of line 127 in the pass that
    saw it fall; and the two passes of the scenario itself. *)
Lemma ClearedAlarm_only_on_turn_off_expiry_witness :
  let b := mkBoot 0 200 false 200 in
  let l := [tick true 0; tick true 1800; tick false 2000] in
  let g := state_after b l in
  let i := tick false 3600 in
  let a := state_after b [tick true 0; tick true 1800] in
  (TOF_running (at_TOF_check i g) = true
   /\ tof_threshold <= usub (wrap (t_tof i)) (tof_start_marker (at_TOF_check i g)))
  /\ count is_ClearedAlarm (trace (loop i) g) = 1%nat
  /\ alarm_state (exec (loop i) g) = Cleared
  /\ alarm_state a = Armed
  /\ alarm_state (exec (loop (tick false 1600)) (exec (loop (tick false 0)) a))
     = Cleared
  /\ stretch_after false (boot_raw b) None (l ++ [i]) = Some 2000
  /\ tof_threshold <= t_tof i - 2000.
Proof.
  cbv zeta.
  pose proof (ClearedAlarm_only_on_turn_off_expiry (mkBoot 0 200 false 200)
                [tick true 0; tick true 1800; tick false 2000]
                (tick false 3600)) as H.
  cbv zeta in H. destruct H as (_ & Hiff & Himp & _ & _ & Hstart).
  pose proof (ClearedAlarm_only_on_turn_off_expiry (mkBoot 0 200 false 200)
                [tick true 0; tick true 1800] (tick false 0)) as H'.
  cbv zeta in H'. destruct H' as (_ & _ & _ & _ & Hscen & _).
  assert (Hpre : TOF_running
                   (at_TOF_check (tick false 3600)
                      (state_after (mkBoot 0 200 false 200)
                         [tick true 0; tick true 1800; tick false 2000])) = true
                 /\ tof_threshold
                    <= usub (wrap (t_tof (tick false 3600)))
                         (tof_start_marker
                            (at_TOF_check (tick false 3600)
                               (state_after (mkBoot 0 200 false 200)
                                  [tick true 0; tick true 1800;
                                   tick false 2000])))).
  { split; [reflexivity | vm_compute; discriminate]. }
  assert (Harmed : alarm_state
                     (state_after (mkBoot 0 200 false 200)
                        [tick true 0; tick true 1800]) = Armed)
    by reflexivity.
  split; [exact Hpre|].
  pose proof (proj2 Hiff Hpre) as Hn.
  destruct (Himp Hn) as (_ & _ & _ & _ & Hcleared).
  destruct (Hscen Harmed) as (_ & _ & _ & Hc2).
  destruct (Hstart Hn) as (s & Hs & _ & _ & Htrue).
  assert (Hs0 : s = 2000)
    by (vm_compute in Hs; injection Hs as <-; reflexivity).
  subst s.
  assert (Hb : 0 <= t_tof (tick false 3600) - 2000 < ulong_modulus)
    by (vm_compute; split; [discriminate | reflexivity]).
  split; [exact Hn|]. split; [exact Hcleared|].
  split; [exact Harmed|]. split; [exact Hc2|].
  split; [exact Hs | exact (Htrue Hb)].
Defined.

(** Scenario D: a rise at 0 that falls back at 500 is cancelled.  Scenario B:
    armed at 1800, a fall at 2000 that rises again at 3000 is cancelled. *)
Lemma flip_back_cancels_pending_timer_witness :
  let b := mkBoot 0 200 false 200 in
  let g := state_after b [tick true 0] in
  let i := tick false 500 in
  let g2 := state_after b [tick true 0; tick true 1800; tick false 2000] in
  let i2 := tick true 3000 in
  (raw i <> last_state g /\ TON_running g = true)
  /\ alarm_state (exec (loop i) g) = Cleared
  /\ gets_of (trace (loop i) g) = []
  /\ (raw i2 <> last_state g2 /\ TOF_running g2 = true)
  /\ alarm_state (exec (loop i2) g2) = Armed
  /\ gets_of (trace (loop i2) g2) = [].
Proof.
  cbv zeta.
  assert (Hne : raw (tick false 500)
                <> last_state (state_after (mkBoot 0 200 false 200)
                                 [tick true 0]))
    by (vm_compute; discriminate).
  assert (Hton : TON_running (state_after (mkBoot 0 200 false 200)
                                [tick true 0]) = true)
    by reflexivity.
  pose proof (flip_back_cancels_pending_timer (mkBoot 0 200 false 200)
                [tick true 0] (tick false 500) Hne (or_introl Hton)) as H.
  cbv zeta in H. destruct H as (_ & _ & _ & HC & _ & _ & _ & Hg).
  assert (Hne2 : raw (tick true 3000)
                 <> last_state (state_after (mkBoot 0 200 false 200)
                                  [tick true 0; tick true 1800;
                                   tick false 2000]))
    by (vm_compute; discriminate).
  assert (Htof : TOF_running (state_after (mkBoot 0 200 false 200)
                                [tick true 0; tick true 1800;
                                 tick false 2000]) = true)
    by reflexivity.
  pose proof (flip_back_cancels_pending_timer (mkBoot 0 200 false 200)
                [tick true 0; tick true 1800; tick false 2000]
                (tick true 3000) Hne2 (or_intror Htof)) as H2.
  cbv zeta in H2. destruct H2 as (_ & _ & _ & _ & HA & _ & _ & Hg2).
  split; [split; [exact Hne | exact Hton]|].
  split; [exact (proj2 (HC Hton))|]. split; [exact Hg|].
  split; [split; [exact Hne2 | exact Htof]|].
  split; [exact (proj2 (HA Htof)) | exact Hg2].
Defined.

(** The LED is inverted in the pass at 2100, in Clearing. *)
Lemma indicator_blinks_iff_alarm_approved_witness :
  let b := mkBoot 0 200 false 200 in
  let l := [tick true 0; tick true 1800; tick false 2000] in
  let i := tick false 2100 in
  let s := at_LED_step i (state_after b l) in
  (approved_alarm_state s = true
   /\ led_interval <= usub (wrap (t_led i)) (previous_led_millis s))
  /\ alarm_state s = Clearing
  /\ led_state (exec (toggle_inbuilt_led_fast (t_led i)) s) <> led_state s.
Proof.
  cbv zeta.
  pose proof (indicator_blinks_iff_alarm_approved (mkBoot 0 200 false 200)
                [tick true 0; tick true 1800; tick false 2000]
                (tick false 2100)) as H.
  cbv zeta in H. destruct H as (_ & _ & Hblink & _).
  assert (Ha : approved_alarm_state
                 (at_LED_step (tick false 2100)
                    (state_after (mkBoot 0 200 false 200)
                       [tick true 0; tick true 1800; tick false 2000])) = true)
    by reflexivity.
  assert (Hle : led_interval
                <= usub (wrap (t_led (tick false 2100)))
                     (previous_led_millis
                        (at_LED_step (tick false 2100)
                           (state_after (mkBoot 0 200 false 200)
                              [tick true 0; tick true 1800; tick false 2000]))))
    by (vm_compute; discriminate).
  destruct (Hblink Ha Hle) as (_ & Hd & _).
  split; [split; [exact Ha | exact Hle]|].
  split; [reflexivity | exact Hd].
Defined.

(** A high sample in Armed changes nothing. *)
Lemma stable_state_pass_changes_nothing_witness :
  let b := mkBoot 0 200 false 200 in
  let g := state_after b [tick true 0; tick true 1800] in
  let i := tick true 1900 in
  (alarm_state g = Armed /\ raw i = last_state g)
  /\ machine_vars (exec (loop i) g) = machine_vars g
  /\ gets_of (trace (loop i) g) = [].
Proof.
  cbv zeta.
  assert (Ha : alarm_state (state_after (mkBoot 0 200 false 200)
                              [tick true 0; tick true 1800]) = Armed)
    by reflexivity.
  assert (Hr : raw (tick true 1900)
               = last_state (state_after (mkBoot 0 200 false 200)
                               [tick true 0; tick true 1800]))
    by reflexivity.
  destruct (stable_state_pass_changes_nothing _ (tick true 1900)
              (or_introl Ha) Hr) as (Hm & _ & _ & _ & Hg).
  split; [split; [exact Ha | exact Hr]|].
  split; [exact Hm | exact Hg].
Defined.

(** The confirming pass at 1800 with both sends answered 500. *)
Lemma failed_send_is_only_logged_witness :
  let b := mkBoot 0 200 false 200 in
  let g := state_after b [tick true 0] in
  let i := with_http_codes 500 500 (tick true 1800) in
  count is_EnteredAlarm (trace (loop i) g) = 1%nat
  /\ In (Println "Failed") (trace (loop i) g)
  /\ machine_vars (exec (loop i) g)
     = machine_vars (exec (loop (tick true 1800)) g).
Proof.
  cbv zeta.
  destruct (failed_send_is_only_logged
              (state_after (mkBoot 0 200 false 200) [tick true 0])
              (tick true 1800) 500 500) as (Hm & _ & _ & _ & Hlog & _).
  assert (Hn : count is_EnteredAlarm
                 (trace (loop (with_http_codes 500 500 (tick true 1800)))
                    (state_after (mkBoot 0 200 false 200) [tick true 0]))
               = 1%nat)
    by reflexivity.
  assert (Hc : 500 <> 200) by discriminate.
  split; [exact Hn|]. split; [exact (Hlog Hn Hc) | exact Hm].
Defined.

(** A timer started 100 ms before the clock overflows and checked 1700 ms
    after it. *)
Lemma elapsed_time_survives_clock_overflow_witness :
  let t0 := 2 ^ 32 - 100 in
  let t1 := 2 ^ 32 + 1700 in
  let b := mkBoot 0 200 false 200 in
  let g := state_after b [tick true t0] in
  let i := tick true t1 in
  (0 <= t1 - t0 < ulong_modulus
   /\ TON_running g = true /\ ton_start_marker g = wrap t0 /\ t_ton i = t1)
  /\ wrap t1 < wrap t0
  /\ usub (wrap t1) (wrap t0) = 1800
  /\ count is_EnteredAlarm (trace (TON_implementation i) g) = 1%nat.
Proof.
  cbv zeta.
  assert (Hb : 0 <= (2 ^ 32 + 1700) - (2 ^ 32 - 100) < ulong_modulus)
    by (vm_compute; split; [discriminate | reflexivity]).
  assert (Hr : TON_running (state_after (mkBoot 0 200 false 200)
                              [tick true (2 ^ 32 - 100)]) = true)
    by reflexivity.
  assert (Hm : ton_start_marker (state_after (mkBoot 0 200 false 200)
                                   [tick true (2 ^ 32 - 100)])
               = wrap (2 ^ 32 - 100))
    by reflexivity.
  assert (Ht : t_ton (tick true (2 ^ 32 + 1700)) = 2 ^ 32 + 1700)
    by reflexivity.
  destruct (elapsed_time_survives_clock_overflow _ _
              (tick true (2 ^ 32 + 1700))
              (state_after (mkBoot 0 200 false 200) [tick true (2 ^ 32 - 100)])
              Hb) as (Hu & Hton & _).
  destruct (Hton Hr Hm Ht) as (_ & Hn).
  split; [exact (conj Hb (conj Hr (conj Hm Ht)))|].
  split; [reflexivity|]. split; [exact Hu | exact Hn].
Defined.

(** High at boot, held for 5000 ms, then low: nothing happens. *)
Lemma high_at_boot_never_arms_witness :
  let b := mkBoot 0 200 true 200 in
  let l := [tick true 0; tick true 5000; tick false 6000; tick false 9000] in
  (boot_raw b = true /\ no_rising_edge true (map raw l) = true)
  /\ alarm_state (state_after b l) = Cleared
  /\ count is_EnteredAlarm (trace_of b l) = 0%nat.
Proof.
  cbv zeta.
  assert (Hb : boot_raw (mkBoot 0 200 true 200) = true) by reflexivity.
  assert (Hr : no_rising_edge true
                 (map raw [tick true 0; tick true 5000; tick false 6000;
                           tick false 9000]) = true)
    by reflexivity.
  pose proof (high_at_boot_never_arms (mkBoot 0 200 true 200)
                [tick true 0; tick true 5000; tick false 6000; tick false 9000]
                Hb Hr) as H.
  cbv zeta in H. destruct H as (_ & (_ & _ & _ & Hc) & _ & Hn).
  split; [split; [exact Hb | exact Hr]|].
  split; [exact Hc | exact Hn].
Defined.

(** * Further properties of the sketch *)

(** ** The two notifications alternate *)

Lemma alternates_app (tr1 tr2 : list effect) :
  forall armed,
    alternates armed (tr1 ++ tr2)
    = alternates armed tr1 && alternates (armed_after armed tr1) tr2.
Proof.
  induction tr1 as [|e tr1 IH]; intro armed; [reflexivity|].
  cbn [app alternates armed_after].
  destruct (is_EnteredAlarm e); [rewrite IH; apply andb_assoc|].
  destruct (is_ClearedAlarm e); [rewrite IH; apply andb_assoc|].
  apply IH.
Qed.

Lemma armed_after_app (tr1 tr2 : list effect) :
  forall armed,
    armed_after armed (tr1 ++ tr2)
    = armed_after (armed_after armed tr1) tr2.
Proof.
  induction tr1 as [|e tr1 IH]; intro armed; [reflexivity|].
  cbn [app armed_after].
  destruct (is_EnteredAlarm e); [apply IH|].
  destruct (is_ClearedAlarm e); apply IH.
Qed.

Lemma alternates_observe (tr : list effect) :
  forall armed,
    alternates armed tr = alternates armed (observe tr)
    /\ armed_after armed tr = armed_after armed (observe tr).
Proof.
  unfold observe.
  induction tr as [|e tr IH]; intro armed; [split; reflexivity|].
  cbn [filter alternates armed_after].
  destruct (relevant e) eqn:Hr; cbn [alternates armed_after].
  - destruct (is_EnteredAlarm e); [destruct (IH true) as [-> ->]; split; reflexivity|].
    destruct (is_ClearedAlarm e); [destruct (IH false) as [-> ->]; split; reflexivity|].
    apply IH.
  - destruct (is_EnteredAlarm e) eqn:He;
      [apply relevant_EnteredAlarm in He; congruence|].
    destruct (is_ClearedAlarm e) eqn:Hc;
      [apply relevant_ClearedAlarm in Hc; congruence|].
    apply IH.
Qed.

Lemma alternates_loop (i : cycle_input) (g : globals) :
  timers_consistent g = true ->
  alternates (approved_alarm_state g) (trace (loop i) g) = true
  /\ armed_after (approved_alarm_state g) (trace (loop i) g)
     = approved_alarm_state (exec (loop i) g).
Proof.
  intro H.
  destruct (alternates_observe (trace (loop i) g) (approved_alarm_state g))
    as [-> ->].
  rewrite loop_observe. loop_to_core i g. open_pass.
  by_cases g i H; split; reflexivity.
Qed.

Lemma alternates_loops (l : list cycle_input) :
  forall g,
    timers_consistent g = true ->
    alternates (approved_alarm_state g) (trace (loops l) g) = true
    /\ armed_after (approved_alarm_state g) (trace (loops l) g)
       = approved_alarm_state (exec (loops l) g).
Proof.
  induction l as [|i l IH]; intros g H; [split; reflexivity|].
  cbn [loops]. rewrite trace_seq, exec_seq, alternates_app, armed_after_app.
  destruct (alternates_loop i g H) as [-> ->].
  cbn [andb]. apply IH, timers_consistent_loop, H.
Qed.

(** X1. Over every run from boot the two alarm notifications alternate,
    and the first one is the entry: an exit is never sent before an entry, and
    neither is sent twice in a row.  The alarm is approved at the end of the
    run exactly when the last notification sent was an entry. *)
Theorem alarm_notifications_alternate (b : boot_input) (l : list cycle_input) :
  alternates false (trace_of b l) = true
  /\ armed_after false (trace_of b l) = approved_alarm_state (state_after b l).
Proof.
  assert (Hs : approved_alarm_state (exec (setup b) initial_globals) = false)
    by (rewrite setup_exec; reflexivity).
  assert (Hc : timers_consistent (exec (setup b) initial_globals) = true)
    by (rewrite setup_exec; reflexivity).
  unfold trace_of, state_after, sketch.
  rewrite trace_seq, exec_seq, alternates_app, armed_after_app.
  destruct (alternates_observe (trace (setup b) initial_globals) false)
    as [-> ->].
  rewrite setup_observe. cbn [alternates armed_after andb].
  rewrite <- Hs. apply alternates_loops, Hc.
Qed.

(** X2. In every pass of every run from boot the approved alarm flag
    changes exactly when a notification is sent: it goes from false to true
    in the passes that send the entry, from true to false in the passes that
    send the exit, and no pass sends both. *)
Theorem approved_flag_changes_with_notification (b : boot_input)
  (l : list cycle_input) (i : cycle_input) :
  let g := state_after b l in
  let g' := exec (loop i) g in
  let entered := count is_EnteredAlarm (trace (loop i) g) in
  let cleared := count is_ClearedAlarm (trace (loop i) g) in
  (entered + cleared <= 1)%nat
  /\ (entered = 1%nat <->
      approved_alarm_state g = false /\ approved_alarm_state g' = true)
  /\ (cleared = 1%nat <->
      approved_alarm_state g = true /\ approved_alarm_state g' = false).
Proof.
  intros g g' entered cleared.
  pose proof (timers_consistent_reachable b l) as H. fold g in H.
  subst entered cleared g'.
  rewrite (count_observe _ _ relevant_EnteredAlarm),
    (count_observe _ _ relevant_ClearedAlarm), loop_observe.
  loop_to_core i g. clearbody g. open_pass.
  by_cases g i H; repeat split; intros;
    repeat match goal with Hc : _ /\ _ |- _ => destruct Hc end;
    try discriminate; try reflexivity; lia.
Qed.

(** ** Stretches shorter than the threshold, and stretches that reach it *)

Lemma count_app (p : effect -> bool) (tr1 tr2 : list effect) :
  count p (tr1 ++ tr2) = (count p tr1 + count p tr2)%nat.
Proof. unfold count. rewrite filter_app. apply length_app. Qed.

Lemma ulong_modulus_value : ulong_modulus = 4294967296.
Proof. reflexivity. Qed.

Lemma usub_below (d a b : Z) :
  0 <= a - b < d -> d <= ulong_modulus -> (d <=? usub (wrap a) (wrap b)) = false.
Proof.
  intros H Hd. rewrite usub_wrap by lia. apply Z.leb_gt. lia.
Qed.

Lemma usub_reached (d a b : Z) :
  d <= a - b < ulong_modulus -> 0 <= d -> (d <=? usub (wrap a) (wrap b)) = true.
Proof.
  intros H Hd. rewrite usub_wrap by lia. apply Z.leb_le. lia.
Qed.

Ltac open_timed :=
  match goal with
  | H : unapproved_timed _ _ ?start |- _ =>
      destruct H as (? & ? & ? & ?); destruct start
  | H : approved_timed _ _ ?start |- _ =>
      destruct H as (? & ? & ? & ?); destruct start
  end;
  repeat match goal with Hc : _ /\ _ |- _ => destruct Hc end.

Lemma brief_high_pass (i : cycle_input) (g : globals) (prev : bool)
  (start : option Z) :
  unapproved_timed g prev start ->
  match stretch_start true prev start i with
  | Some s => 0 <= t_ton i - s < ton_threshold
  | None => True
  end ->
  unapproved_timed (exec (loop i) g) (raw i) (stretch_start true prev start i)
  /\ observe (trace (loop i) g)
     = if raw i && negb prev then [TON_start_line] else [].
Proof.
  intros Hinv Hbrief. unfold unapproved_timed.
  rewrite loop_observe. loop_to_core i g. open_pass.
  destruct g as [ls cl pl rs last new tonm tofm ton tof app].
  destruct i as [r tr tf tp tt ht tfp tft hf tl out].
  unfold stretch_start in *.
  destruct prev, r; open_timed; cbn in * |-; subst; try discriminate;
    cbn;
    rewrite ?(usub_below ton_threshold) by
      (rewrite ?ulong_modulus_value; unfold ton_threshold in *; lia);
    cbn; repeat split.
Qed.

Lemma brief_low_pass (i : cycle_input) (g : globals) (prev : bool)
  (start : option Z) :
  approved_timed g prev start ->
  match stretch_start false prev start i with
  | Some s => 0 <= t_tof i - s < tof_threshold
  | None => True
  end ->
  approved_timed (exec (loop i) g) (raw i) (stretch_start false prev start i)
  /\ observe (trace (loop i) g)
     = if negb (raw i) && prev then [TOF_start_line] else [].
Proof.
  intros Hinv Hbrief. unfold approved_timed.
  rewrite loop_observe. loop_to_core i g. open_pass.
  destruct g as [ls cl pl rs last new tonm tofm ton tof app].
  destruct i as [r tr tf tp tt ht tfp tft hf tl out].
  unfold stretch_start in *.
  destruct prev, r; open_timed; cbn in * |-; subst; try discriminate;
    cbn;
    rewrite ?(usub_below tof_threshold) by
      (rewrite ?ulong_modulus_value; unfold tof_threshold in *; lia);
    cbn; repeat split.
Qed.

Lemma reached_high_pass (i : cycle_input) (g : globals) (prev : bool)
  (start : option Z) (s : Z) :
  unapproved_timed g prev start ->
  stretch_start true prev start i = Some s ->
  ton_threshold <= t_ton i - s < ulong_modulus ->
  observe (trace (loop i) g)
  = (if negb prev then [TON_start_line] else []) ++ [EnteredAlarm]
  /\ alarm_state (exec (loop i) g) = Armed.
Proof.
  intros Hinv Hs Hreach. unfold alarm_state.
  rewrite loop_observe. loop_to_core i g. open_pass.
  destruct g as [ls cl pl rs last new tonm tofm ton tof app].
  destruct i as [r tr tf tp tt ht tfp tft hf tl out].
  unfold stretch_start in *.
  destruct prev, r; open_timed; cbn in * |-; subst; try discriminate;
    injection Hs as <-;
    cbn;
    rewrite ?(usub_reached ton_threshold) by
      (rewrite ?ulong_modulus_value; unfold ton_threshold in *; lia);
    cbn; repeat split.
Qed.


Lemma brief_stretches_step (level prev : bool) (start : option Z)
  (i : cycle_input) (l : list cycle_input) :
  brief_stretches level prev start (i :: l) = true ->
  match stretch_start level prev start i with
  | Some s => 0 <= check_time level i - s < threshold_of level
  | None => True
  end
  /\ brief_stretches level (raw i) (stretch_start level prev start i) l = true.
Proof.
  cbn [brief_stretches]. intro H. apply andb_true_iff in H as [H Hl].
  split; [|exact Hl].
  destruct (stretch_start level prev start i); [|exact I].
  apply andb_true_iff in H as [H1 H2].
  apply Z.leb_le in H1. apply Z.ltb_lt in H2. lia.
Qed.

Lemma brief_high_loops (l : list cycle_input) :
  forall g prev start,
    unapproved_timed g prev start ->
    brief_stretches true prev start l = true ->
    unapproved_timed (exec (loops l) g) (last (map raw l) prev)
      (stretch_after true prev start l)
    /\ count is_EnteredAlarm (trace (loops l) g) = 0%nat
    /\ count is_ClearedAlarm (trace (loops l) g) = 0%nat.
Proof.
  induction l as [|i l IH]; intros g prev start Hinv Hb;
    [split; [exact Hinv | split; reflexivity]|].
  apply brief_stretches_step in Hb as [Hi Hl].
  destruct (brief_high_pass i g prev start Hinv Hi) as [Hinv' Ho].
  destruct (IH _ _ _ Hinv' Hl) as (Hfin & He & Hc).
  cbn [loops]. rewrite exec_seq, trace_seq, !count_app, He, Hc.
  rewrite (count_observe _ _ relevant_EnteredAlarm),
    (count_observe _ _ relevant_ClearedAlarm), Ho.
  split; [|split; destruct (raw i && negb prev); reflexivity].
  cbn [map stretch_after]. rewrite last_cons_default. exact Hfin.
Qed.

Lemma brief_low_loops (l : list cycle_input) :
  forall g prev start,
    approved_timed g prev start ->
    brief_stretches false prev start l = true ->
    approved_timed (exec (loops l) g) (last (map raw l) prev)
      (stretch_after false prev start l)
    /\ count is_EnteredAlarm (trace (loops l) g) = 0%nat
    /\ count is_ClearedAlarm (trace (loops l) g) = 0%nat.
Proof.
  induction l as [|i l IH]; intros g prev start Hinv Hb;
    [split; [exact Hinv | split; reflexivity]|].
  apply brief_stretches_step in Hb as [Hi Hl].
  destruct (brief_low_pass i g prev start Hinv Hi) as [Hinv' Ho].
  destruct (IH _ _ _ Hinv' Hl) as (Hfin & He & Hc).
  cbn [loops]. rewrite exec_seq, trace_seq, !count_app, He, Hc.
  rewrite (count_observe _ _ relevant_EnteredAlarm),
    (count_observe _ _ relevant_ClearedAlarm), Ho.
  split; [|split; destruct (negb (raw i) && prev); reflexivity].
  cbn [map stretch_after]. rewrite last_cons_default. exact Hfin.
Qed.

Lemma unapproved_timed_at_boot (b : boot_input) :
  unapproved_timed (exec (setup b) initial_globals) (boot_raw b) None.
Proof. rewrite setup_exec. repeat split. Qed.

Lemma trace_of_parts (b : boot_input) (l : list cycle_input) :
  trace_of b l
  = trace (setup b) initial_globals
    ++ trace (loops l) (exec (setup b) initial_globals)
  /\ state_after b l = exec (loops l) (exec (setup b) initial_globals).
Proof.
  unfold trace_of, state_after, sketch. rewrite trace_seq, exec_seq.
  split; reflexivity.
Qed.

Lemma setup_counts (b : boot_input) :
  count is_EnteredAlarm (trace (setup b) initial_globals) = 0%nat
  /\ count is_ClearedAlarm (trace (setup b) initial_globals) = 0%nat.
Proof.
  rewrite (count_observe _ _ relevant_EnteredAlarm),
    (count_observe _ _ relevant_ClearedAlarm), setup_observe.
  split; reflexivity.
Qed.

(** X3. Chatter is suppressed: on a run from boot in which every high
    stretch is, at every check of the turn-on timer, younger than the turn-on
    threshold (counted from the clock reading of the pass that saw it rise),
    no notification is ever sent and the alarm is never approved, however
    often the input toggles. *)
Theorem brief_highs_never_notify (b : boot_input) (l : list cycle_input) :
  brief_stretches true (boot_raw b) None l = true ->
  count is_EnteredAlarm (trace_of b l) = 0%nat
  /\ count is_ClearedAlarm (trace_of b l) = 0%nat
  /\ approved_alarm_state (state_after b l) = false
  /\ TOF_running (state_after b l) = false.
Proof.
  intro Hb.
  destruct (trace_of_parts b l) as [-> ->].
  destruct (setup_counts b) as [He0 Hc0].
  destruct (brief_high_loops l _ _ _ (unapproved_timed_at_boot b) Hb)
    as ((Ha & Hf & _) & He & Hc).
  rewrite !count_app, He0, Hc0, He, Hc. repeat split; assumption.
Qed.

(** X4. A held level is confirmed, once: after any such run, the first
    pass whose check finds the current high stretch at least as old as the
    turn-on threshold (and younger than the wrap-around period) sends the
    entry notification; it is the only notification of the whole run, and the
    pass ends Armed. *)
Theorem held_high_is_confirmed_once (b : boot_input) (l : list cycle_input)
  (i : cycle_input) (s : Z) :
  brief_stretches true (boot_raw b) None l = true ->
  stretch_start true (latest_sample b l)
    (stretch_after true (boot_raw b) None l) i = Some s ->
  ton_threshold <= t_ton i - s < ulong_modulus ->
  count is_EnteredAlarm (trace_of b (l ++ [i])) = 1%nat
  /\ count is_ClearedAlarm (trace_of b (l ++ [i])) = 0%nat
  /\ count is_EnteredAlarm (trace (loop i) (state_after b l)) = 1%nat
  /\ alarm_state (state_after b (l ++ [i])) = Armed.
Proof.
  intros Hb Hs Hreach. unfold latest_sample in Hs.
  destruct (trace_of_parts b (l ++ [i])) as [-> ->].
  destruct (trace_of_parts b l) as [_ ->].
  destruct (setup_counts b) as [He0 Hc0].
  destruct (brief_high_loops l _ _ _ (unapproved_timed_at_boot b) Hb)
    as (Hinv & He & Hc).
  destruct (reached_high_pass i _ _ _ s Hinv Hs Hreach) as [Ho Harmed].
  rewrite loops_exec_app, loops_trace_app.
  destruct (loops_one i (exec (loops l) (exec (setup b) initial_globals)))
    as [-> ->].
  rewrite !count_app, He0, Hc0, He, Hc.
  rewrite (count_observe _ _ relevant_EnteredAlarm),
    (count_observe _ _ relevant_ClearedAlarm), Ho.
  repeat split; try exact Harmed;
    destruct (negb (last (map raw l) (boot_raw b))); reflexivity.
Qed.

(** X5. Brief dropouts do not clear the alarm: from any Armed state, a
    sequence of passes in which every low stretch is, at every check of the
    turn-off timer, younger than the turn-off threshold sends no notification
    and leaves the alarm approved. *)
Theorem brief_lows_never_clear (g : globals) (l : list cycle_input) :
  alarm_state g = Armed ->
  brief_stretches false (last_state g) None l = true ->
  count is_ClearedAlarm (trace (loops l) g) = 0%nat
  /\ count is_EnteredAlarm (trace (loops l) g) = 0%nat
  /\ approved_alarm_state (exec (loops l) g) = true
  /\ TON_running (exec (loops l) g) = false.
Proof.
  intros Harmed Hb.
  assert (Hinv : approved_timed g (last_state g) None).
  { revert Harmed. unfold alarm_state, approved_timed.
    destruct (TON_running g), (TOF_running g), (approved_alarm_state g);
      intro; try discriminate; repeat split. }
  destruct (brief_low_loops l _ _ _ Hinv Hb) as ((Ha & Hn & _) & He & Hc).
  repeat split; assumption.
Qed.


(** ** What a pass leaves alone *)

(** X7. Timers start only at their edge: a pass changes the turn-on start
    marker, or sets the turn-on timer running, only if it sees a rising edge
    while the alarm is not approved, and the marker is then the clock reading
    of line 111; likewise the turn-off marker and timer, a falling edge while
    the alarm is approved, and line 127.  A held level never restarts its
    timer. *)
Theorem timers_start_only_at_their_edge (g : globals) (i : cycle_input) :
  let g' := exec (loop i) g in
  let rising := raw i = true /\ last_state g = false
                /\ approved_alarm_state g = false in
  let falling := raw i = false /\ last_state g = true
                 /\ approved_alarm_state g = true in
  (ton_start_marker g' <> ton_start_marker g ->
   rising /\ ton_start_marker g' = wrap (t_rise i))
  /\ (TON_running g = false -> TON_running g' = true -> rising)
  /\ (tof_start_marker g' <> tof_start_marker g ->
      falling /\ tof_start_marker g' = wrap (t_fall i))
  /\ (TOF_running g = false -> TOF_running g' = true -> falling).
Proof.
  intros g' rising falling. subst g' rising falling.
  loop_to_core i g. open_pass.
  all_cases g i; repeat split; intros; try discriminate; try reflexivity;
    exfalso; match goal with Hne : ?x <> ?x |- _ => apply Hne; reflexivity end.
Qed.

Lemma new_state_indicate_and_pace (i : cycle_input) (g : globals) :
  new_state (exec (indicate_and_pace i) g) = new_state g.
Proof.
  unfold indicate_and_pace.
  rewrite !exec_seq, wifi_check_exec, toggle_inbuilt_led_fast_exec.
  cbn. destruct (approved_alarm_state g); [|reflexivity].
  destruct (led_interval <=? _); reflexivity.
Qed.

Lemma samples_tracked_loop (i : cycle_input) (g : globals) :
  timers_consistent g = true ->
  last_state (exec (loop i) g) = raw i /\ new_state (exec (loop i) g) = raw i.
Proof.
  intro H. split.
  - loop_to_core i g. open_pass. by_cases g i H; reflexivity.
  - unfold loop. rewrite !exec_seq, new_state_indicate_and_pace.
    fold (at_TON_check i g). open_pass. by_cases g i H; reflexivity.
Qed.

(** X8. The machine follows the input: after every run from boot
    [last_state] and [new_state] both hold the most recent sample (the one of
    [setup] if [loop] has not run yet), whatever the timers did. *)
Theorem last_state_is_latest_sample (b : boot_input) (l : list cycle_input) :
  last_state (state_after b l) = latest_sample b l
  /\ new_state (state_after b l) = latest_sample b l.
Proof.
  unfold latest_sample.
  induction l as [|i l IH] using rev_ind.
  - unfold state_after, sketch. rewrite exec_seq, setup_exec. split; reflexivity.
  - rewrite state_after_snoc, map_app. cbn [map]. rewrite last_last.
    apply samples_tracked_loop, timers_consistent_reachable.
Qed.

(** ** The four-state table *)

Lemma alarm_notifications_observe (tr : list effect) :
  alarm_notifications tr = alarm_notifications (observe tr).
Proof.
  unfold alarm_notifications, observe.
  induction tr as [|e tr IH]; [reflexivity|].
  cbn [filter]. destruct (relevant e) eqn:Hr; cbn [filter]; rewrite IH.
  - reflexivity.
  - destruct (is_EnteredAlarm e) eqn:He;
      [apply relevant_EnteredAlarm in He; congruence|].
    destruct (is_ClearedAlarm e) eqn:Hc;
      [apply relevant_ClearedAlarm in Hc; congruence|].
    reflexivity.
Qed.

(** X9. On every run from boot a pass of [loop] acts on the four states as
    the transition table of the specification: the edge moves Cleared to
    Confirming, Confirming back to Cleared, Armed to Clearing and Clearing
    back to Armed; then the expiry check of the pending timer moves Confirming
    to Armed with the entry notification and Clearing to Cleared with the exit
    notification.  The state at the expiry check is the one the edge row
    gives, and the notifications of the pass are those of the table. *)
Theorem loop_follows_transition_table (b : boot_input) (l : list cycle_input)
  (i : cycle_input) :
  let g := state_after b l in
  alarm_state (at_TON_check i g) = table_edge (alarm_state g) (edge_of i g)
  /\ table_step (alarm_state g) (edge_of i g) (ton_due i g) (tof_due i g)
     = (alarm_state (exec (loop i) g), alarm_notifications (trace (loop i) g)).
Proof.
  intro g. pose proof (timers_consistent_reachable b l) as H. fold g in H.
  rewrite alarm_notifications_observe, loop_observe.
  unfold table_step, edge_of, ton_due, tof_due, alarm_state.
  loop_to_core i g. clearbody g. open_pass.
  by_cases g i H; split; reflexivity.
Qed.

(** ** Delays, GETs and LED writes *)

Lemma total_delay_app (tr1 tr2 : list effect) :
  total_delay (tr1 ++ tr2) = total_delay tr1 + total_delay tr2.
Proof.
  induction tr1 as [|e tr1 IH]; [reflexivity|].
  destruct e; cbn [app total_delay]; rewrite IH; lia.
Qed.

Lemma led_writes_app (tr1 tr2 : list effect) :
  led_writes (tr1 ++ tr2) = led_writes tr1 ++ led_writes tr2.
Proof.
  induction tr1 as [|e tr1 IH]; [reflexivity|].
  destruct e; cbn [app led_writes]; rewrite IH; reflexivity.
Qed.

Lemma waiting_trace_quiet (polls : nat) :
  total_delay (waiting_trace polls) = 500 * Z.of_nat polls
  /\ led_writes (waiting_trace polls) = []
  /\ gets_of (waiting_trace polls) = [].
Proof.
  induction polls as [|n (IHd & IHl & IHg)]; [repeat split|].
  cbn [waiting_trace total_delay led_writes]. rewrite IHd, IHl.
  repeat split; [lia | exact IHg].
Qed.

(** The effects of [connect_to_wifi] before and after its connection loop. *)
Lemma connect_to_wifi_trace (polls : nat) (c : Z) (g : globals) :
  exists pre post,
    trace (connect_to_wifi polls c) g = pre ++ waiting_trace polls ++ post
    /\ (led_writes pre = [LOW] /\ gets_of pre = [] /\ total_delay pre = 1000)
    /\ (led_writes post = [HIGH] /\ gets_of post = [HttpGet connected_label]
        /\ total_delay post = 0).
Proof.
  unfold trace, connect_to_wifi, bind, digitalWrite_LED_BUILTIN, delay,
    Serial_print, Serial_println, emit. cbn.
  rewrite wait_for_wifi_run. cbn.
  unfold report_response, bind, gets. cbn.
  destruct (c =? 200); cbn.
  - exists [LedWrite LOW; Call "WiFi.mode"; Call "WiFi.disconnect"; Delay 1000;
            Println EmptyString; Print "Device name: "; Println deviceName;
            Call "WiFi.hostname"; Print "Connecting to: "; PrintInfo "_SSID_";
            Call "WiFi.begin"].
    eexists. split; [reflexivity|]. repeat split.
  - exists [LedWrite LOW; Call "WiFi.mode"; Call "WiFi.disconnect"; Delay 1000;
            Println EmptyString; Print "Device name: "; Println deviceName;
            Call "WiFi.hostname"; Print "Connecting to: "; PrintInfo "_SSID_";
            Call "WiFi.begin"].
    eexists. split; [reflexivity|]. repeat split.
Qed.

(** X10. [connect_to_wifi], for any number of polls and any status code:
    it writes the LED LOW before the connection loop and HIGH after it, and
    nothing else to the LED; it blocks 1000 ms plus 500 ms for every poll
    that finds the station not connected; and it sends exactly one GET, the
    "Pump-relay_connected_to_WiFi!" notification, after the loop. *)
Theorem connect_to_wifi_protocol (polls : nat) (c : Z) (g : globals) :
  (exists pre post,
     trace (connect_to_wifi polls c) g = pre ++ waiting_trace polls ++ post
     /\ led_writes pre = [LOW] /\ gets_of pre = []
     /\ led_writes post = [HIGH] /\ gets_of post = [HttpGet connected_label])
  /\ led_writes (trace (connect_to_wifi polls c) g) = [LOW; HIGH]
  /\ gets_of (trace (connect_to_wifi polls c) g) = [HttpGet connected_label]
  /\ total_delay (trace (connect_to_wifi polls c) g)
     = 1000 + 500 * Z.of_nat polls.
Proof.
  destruct (connect_to_wifi_trace polls c g)
    as (pre & post & Ht & (Hl1 & Hg1 & Hd1) & (Hl2 & Hg2 & Hd2)).
  destruct (waiting_trace_quiet polls) as (Hdw & Hlw & Hgw).
  split; [exists pre, post; repeat split; assumption|].
  rewrite Ht, !led_writes_app, !gets_of_app, !total_delay_app.
  rewrite Hl1, Hl2, Hlw, Hg1, Hg2, Hgw, Hd1, Hd2, Hdw.
  repeat split. lia.
Qed.

Lemma wifi_check_accounts (l : list (nat * Z)) (g : globals) :
  total_delay (trace (wifi_check l) g) = reconnect_delay l
  /\ gets_of (trace (wifi_check l) g)
     = repeat (HttpGet connected_label) (List.length l)
  /\ led_writes (trace (wifi_check l) g)
     = flat_map (fun _ => [LOW; HIGH]) l.
Proof.
  revert g. induction l as [|[polls c] rest IH]; intro g; [repeat split|].
  cbn [wifi_check reconnect_delay List.length repeat flat_map].
  rewrite !trace_seq, !total_delay_app, !gets_of_app, !led_writes_app.
  destruct (connect_to_wifi_trace polls c
              (exec (Serial_println "Lost connection to WiFi!") g))
    as (pre & post & Ht & (Hl1 & Hg1 & Hd1) & (Hl2 & Hg2 & Hd2)).
  destruct (waiting_trace_quiet polls) as (Hdw & Hlw & Hgw).
  destruct (IH (exec (connect_to_wifi polls c)
                  (exec (Serial_println "Lost connection to WiFi!") g)))
    as (IHd & IHg & IHl).
  rewrite Ht, !led_writes_app, !gets_of_app, !total_delay_app.
  rewrite Hl1, Hl2, Hlw, Hg1, Hg2, Hgw, Hd1, Hd2, Hdw, IHd, IHg, IHl.
  repeat split. unfold trace, Serial_println, emit. cbn [snd total_delay]. lia.
Qed.

Lemma blocks_no_delay (i : cycle_input) (g : globals) :
  total_delay (trace (sample_and_detect i) g) = 0
  /\ total_delay (trace (TON_implementation i) g) = 0
  /\ total_delay (trace (TOF_implementation i) g) = 0.
Proof.
  destruct g as [ls cl pl rs last new tonm tofm ton tof app].
  destruct i as [r tr tf tp tt ht tfp tft hf tl out].
  split; [destruct r, last, app; reflexivity|].
  split.
  - destruct ton; [|reflexivity]. unfold_sketch. cbn.
    destruct (ton_threshold <=? usub (wrap tt) tonm); [|reflexivity].
    cbn. destruct (ht =? 200); reflexivity.
  - destruct tof; [|reflexivity]. unfold_sketch. cbn.
    destruct (tof_threshold <=? usub (wrap tft) tofm); [|reflexivity].
    cbn. destruct (hf =? 200); reflexivity.
Qed.

Lemma blocks_no_led_write (i : cycle_input) (g : globals) :
  led_writes (trace (sample_and_detect i) g) = []
  /\ led_writes (trace (TON_implementation i) g) = []
  /\ led_writes (trace (TOF_implementation i) g) = [].
Proof.
  destruct g as [ls cl pl rs last new tonm tofm ton tof app].
  destruct i as [r tr tf tp tt ht tfp tft hf tl out].
  split; [destruct r, last, app; reflexivity|].
  split.
  - destruct ton; [|reflexivity]. unfold_sketch. cbn.
    destruct (ton_threshold <=? usub (wrap tt) tonm); [|reflexivity].
    cbn. destruct (ht =? 200); reflexivity.
  - destruct tof; [|reflexivity]. unfold_sketch. cbn.
    destruct (tof_threshold <=? usub (wrap tft) tofm); [|reflexivity].
    cbn. destruct (hf =? 200); reflexivity.
Qed.

Lemma led_state_indicate_and_pace (i : cycle_input) (g : globals) :
  led_state (exec (indicate_and_pace i) g)
  = led_state (exec (toggle_inbuilt_led_fast (t_led i)) g).
Proof.
  unfold indicate_and_pace. rewrite !exec_seq, wifi_check_exec. reflexivity.
Qed.

Lemma led_state_loop (i : cycle_input) (g : globals) :
  led_state (exec (loop i) g)
  = led_state (exec (toggle_inbuilt_led_fast (t_led i)) (at_LED_step i g)).
Proof.
  unfold loop. rewrite !exec_seq, led_state_indicate_and_pace.
  unfold at_LED_step. rewrite !exec_seq. reflexivity.
Qed.

Lemma led_state_at_LED_step (i : cycle_input) (g : globals) :
  led_state (at_LED_step i g) = led_state g.
Proof.
  rewrite at_LED_step_eq. open_pass. all_cases g i; reflexivity.
Qed.

Lemma approved_at_LED_step (i : cycle_input) (g : globals) :
  approved_alarm_state (at_LED_step i g)
  = approved_alarm_state (exec (loop i) g).
Proof.
  rewrite at_LED_step_eq.
  pose proof (loop_machine_vars i g) as Hm. unfold machine_vars in Hm.
  injection Hm as Ha _ _ _ _ _. symmetry. exact Ha.
Qed.

Lemma inverted_binary (level : Z) :
  inverted level = LOW \/ inverted level = HIGH.
Proof. unfold inverted. destruct (level =? LOW); [right | left]; reflexivity. Qed.

Lemma led_state_after_loop (i : cycle_input) (g : globals) :
  led_state g = LOW \/ led_state g = HIGH ->
  (led_state (exec (loop i) g) = LOW \/ led_state (exec (loop i) g) = HIGH)
  /\ (approved_alarm_state (exec (loop i) g) = false ->
      led_state (exec (loop i) g) = HIGH).
Proof.
  intro Hb. rewrite <- approved_at_LED_step, led_state_loop.
  rewrite toggle_inbuilt_led_fast_exec, <- (led_state_at_LED_step i g) in *.
  destruct (approved_alarm_state (at_LED_step i g)); cbv zeta.
  - split; [|discriminate].
    destruct (led_interval <=? _); cbn; [apply inverted_binary | exact Hb].
  - split; [right|]; reflexivity.
Qed.

(** X11. What a pass of [loop] costs and reports.  From any state: it
    blocks 100 ms plus the time of its reconnections, and its GETs are, in
    this order, the entry notification if the turn-on timer expired, the exit
    notification if the turn-off timer expired, and one
    "Pump-relay_connected_to_WiFi!" for every turn of the reconnection loop.
    From a state whose [led_state] is LOW or HIGH, as it is on every run from
    boot: it writes the LED once with the new [led_state], which is again LOW
    or HIGH, then LOW and HIGH for every reconnection. *)
Theorem loop_pass_accounts (i : cycle_input) (g : globals) :
  total_delay (trace (loop i) g) = 100 + reconnect_delay (outages i)
  /\ gets_of (trace (loop i) g)
     = (if TON_expired i (at_TON_check i g) then [EnteredAlarm] else [])
       ++ (if TOF_expired i (at_TOF_check i g) then [ClearedAlarm] else [])
       ++ repeat (HttpGet connected_label) (List.length (outages i))
  /\ (led_state g = LOW \/ led_state g = HIGH ->
      led_writes (trace (loop i) g)
      = led_state (exec (loop i) g)
        :: flat_map (fun _ => [LOW; HIGH]) (outages i)
      /\ (led_state (exec (loop i) g) = LOW
          \/ led_state (exec (loop i) g) = HIGH)).
Proof.
  split; [|split].
  - rewrite loop_trace_parts. unfold indicate_and_pace.
    rewrite !trace_seq, !total_delay_app, toggle_inbuilt_led_fast_trace.
    destruct (blocks_no_delay i g) as (-> & _ & _).
    destruct (blocks_no_delay i (at_TON_check i g)) as (_ & -> & _).
    destruct (blocks_no_delay i (at_TOF_check i g)) as (_ & _ & ->).
    destruct (wifi_check_accounts (outages i)
                (exec (toggle_inbuilt_led_fast (t_led i)) (at_LED_step i g)))
      as (-> & _ & _).
    unfold trace, delay, emit. cbn [snd total_delay]. lia.
  - rewrite loop_gets.
    destruct (wifi_check_accounts (outages i) g) as (_ & -> & _). reflexivity.
  - intro Hlevel. split; [|apply led_state_after_loop, Hlevel].
    rewrite loop_trace_parts. unfold indicate_and_pace.
    rewrite !trace_seq, !led_writes_app, toggle_inbuilt_led_fast_trace.
    destruct (blocks_no_led_write i g) as (-> & _ & _).
    destruct (blocks_no_led_write i (at_TON_check i g)) as (_ & -> & _).
    destruct (blocks_no_led_write i (at_TOF_check i g)) as (_ & _ & ->).
    destruct (wifi_check_accounts (outages i)
                (exec (toggle_inbuilt_led_fast (t_led i)) (at_LED_step i g)))
      as (_ & _ & ->).
    rewrite led_state_loop. cbn. rewrite app_nil_r. reflexivity.
Qed.

(** ** Boot *)

Lemma count_gets_of (label : string) (tr : list effect) :
  count (is_get label) tr = count (is_get label) (gets_of tr).
Proof.
  unfold count, gets_of.
  induction tr as [|e tr IH]; [reflexivity|].
  destruct e; cbn [filter is_get]; try exact IH.
  destruct (String.eqb value1 label); cbn [List.length]; rewrite IH; reflexivity.
Qed.

Lemma count_powered_repeat (n : nat) :
  count (is_get powered_label) (repeat (HttpGet connected_label) n) = 0%nat.
Proof. induction n as [|n IH]; [reflexivity | exact IH]. Qed.

Lemma loop_never_powered (i : cycle_input) (g : globals) :
  count (is_get powered_label) (trace (loop i) g) = 0%nat.
Proof.
  rewrite count_gets_of, loop_gets, !count_app.
  destruct (wifi_check_accounts (outages i) g) as (_ & -> & _).
  rewrite count_powered_repeat.
  destruct (TON_expired i (at_TON_check i g)),
    (TOF_expired i (at_TOF_check i g)); reflexivity.
Qed.

Lemma loops_never_powered (l : list cycle_input) :
  forall g, count (is_get powered_label) (trace (loops l) g) = 0%nat.
Proof.
  induction l as [|i l IH]; intro g; [reflexivity|].
  cbn [loops]. rewrite trace_seq, count_app, loop_never_powered, IH.
  reflexivity.
Qed.

Lemma setup_accounts (b : boot_input) :
  gets_of (trace (setup b) initial_globals)
  = [HttpGet connected_label; HttpGet powered_label]
  /\ total_delay (trace (setup b) initial_globals)
     = 2000 + 500 * Z.of_nat (boot_polls b).
Proof.
  unfold setup.
  rewrite !trace_seq, !gets_of_app, !total_delay_app.
  destruct (connect_to_wifi_trace (boot_polls b) (boot_wifi_http b)
              (exec (emit (Call "Serial.begin"))
                 (exec (emit (Call "pinMode(LED_BUILTIN, OUTPUT)"))
                    initial_globals)))
    as (pre & post & Ht & (Hl1 & Hg1 & Hd1) & (Hl2 & Hg2 & Hd2)).
  destruct (waiting_trace_quiet (boot_polls b)) as (Hdw & Hlw & Hgw).
  rewrite Ht, !gets_of_app, !total_delay_app.
  rewrite Hg1, Hg2, Hgw, Hd1, Hd2, Hdw.
  rewrite ?exec_seq, connect_to_wifi_exec.
  cbv -[Z.add Z.mul Z.eqb Z.of_nat boot_http boot_polls].
  destruct (boot_http b =? 200); split; try reflexivity; lia.
Qed.

(** X12. Boot: [setup] sends exactly two GETs, first the connection
    notification and then "Notifier_powered_and_running!", whatever their
    status codes; it blocks 2000 ms plus 500 ms for every poll of the
    connection loop; it leaves the machine Cleared with the sample of line 81
    as last sample; and no pass of [loop] sends the power-on notification
    again: every run from boot contains it exactly once. *)
Theorem power_on_is_notified_once (b : boot_input) (l : list cycle_input) :
  gets_of (trace (setup b) initial_globals)
  = [HttpGet connected_label; HttpGet powered_label]
  /\ total_delay (trace (setup b) initial_globals)
     = 2000 + 500 * Z.of_nat (boot_polls b)
  /\ machine_vars (state_after b [])
     = (false, false, false, 0, 0, boot_raw b)
  /\ alarm_state (state_after b []) = Cleared
  /\ count (is_get powered_label) (trace_of b l) = 1%nat.
Proof.
  destruct (setup_accounts b) as [Hg Hd].
  split; [exact Hg|]. split; [exact Hd|].
  assert (Hs : state_after b [] = exec (setup b) initial_globals).
  { unfold state_after, sketch. rewrite exec_seq. reflexivity. }
  rewrite Hs, setup_exec.
  split; [reflexivity|]. split; [reflexivity|].
  unfold trace_of, sketch.
  rewrite trace_seq, count_app, loops_never_powered, count_gets_of, Hg.
  reflexivity.
Qed.

(** ** The LED variable *)

(** X13. The LED variable: on every run from boot [led_state] is LOW or
    HIGH, and at the end of every pass in which the alarm is not approved it
    is HIGH. *)
Theorem led_state_is_a_level (b : boot_input) (l : list cycle_input)
  (i : cycle_input) :
  (led_state (state_after b l) = LOW \/ led_state (state_after b l) = HIGH)
  /\ (approved_alarm_state (state_after b (l ++ [i])) = false ->
      led_state (state_after b (l ++ [i])) = HIGH).
Proof.
  assert (Hbin : forall l', led_state (state_after b l') = LOW
                            \/ led_state (state_after b l') = HIGH).
  { induction l' as [|j l' IH] using rev_ind.
    - unfold state_after, sketch. rewrite exec_seq, setup_exec. left. reflexivity.
    - rewrite state_after_snoc. apply led_state_after_loop, IH. }
  split; [apply Hbin|].
  rewrite state_after_snoc. apply led_state_after_loop, Hbin.
Qed.

(** ** The progress callback of the OTA update *)

(** X14. The percentage the progress callback prints, for a progress that
    does not exceed the total: for a total below 100 the divisor [total / 100]
    is zero and the callback has no result; from 100 on the percentage is
    [progress / (total / 100)], which is below 200 but can exceed 100, and is
    at most 100 (and 100 at the end) when the total is a multiple of 100.
    The callback prints it and changes no global. *)
Theorem ota_progress_percent_bounds (progress total : Z) (g : globals) :
  0 <= progress <= total ->
  (total < 100 ->
   ota_progress_percent progress total = None
   /\ ota_onProgress progress total = None)
  /\ (100 <= total ->
      exists p m,
        ota_progress_percent progress total = Some p
        /\ ota_onProgress progress total = Some m
        /\ exec m g = g
        /\ trace m g = [Print "Progress: "; PrintNum p;
                        Print ("%" ++ carriage_return)]
        /\ p = progress / (total / 100)
        /\ 0 <= p < 200
        /\ (total mod 100 = 0 -> p <= 100 /\ (progress = total -> p = 100))).
Proof.
  intro H. unfold ota_onProgress, ota_progress_percent, udiv.
  change (100 =? 0) with false. cbv iota.
  split.
  - intro Hlt. assert (Hq : total / 100 = 0) by (apply Z.div_small; lia).
    rewrite Hq. split; reflexivity.
  - intro Hge.
    assert (Hq : 1 <= total / 100)
      by (apply Z.div_le_lower_bound; lia).
    assert (Hne : (total / 100 =? 0) = false) by (apply Z.eqb_neq; lia).
    rewrite Hne.
    pose proof (Z.div_mod total 100 ltac:(lia)) as Hdm.
    pose proof (Z.mod_pos_bound total 100 ltac:(lia)) as Hmod.
    eexists. eexists. split; [reflexivity|]. split; [reflexivity|].
    split; [reflexivity|]. split; [reflexivity|]. split; [reflexivity|].
    split; [split|].
    + apply Z.div_pos; lia.
    + apply Z.div_lt_upper_bound; lia.
    + intro Hm0. split.
      * apply Z.div_le_upper_bound; lia.
      * intros ->. rewrite Hm0, Z.add_0_r in Hdm.
        remember (total / 100) as q eqn:Eq. clear Eq Hne.
        rewrite Hdm. apply Z.div_mul. lia.
Qed.

(** ** The further properties on concrete runs *)

(** The confirming pass at 1800: the flag goes up and the entry is sent. *)
Lemma approved_flag_changes_with_notification_witness :
  let b := mkBoot 0 200 false 200 in
  let g := state_after b [tick true 0] in
  let i := tick true 1800 in
  (approved_alarm_state g = false
   /\ approved_alarm_state (exec (loop i) g) = true)
  /\ count is_EnteredAlarm (trace (loop i) g) = 1%nat.
Proof.
  cbv zeta.
  pose proof (approved_flag_changes_with_notification
                (mkBoot 0 200 false 200) [tick true 0] (tick true 1800)) as H.
  cbv zeta in H. destruct H as (_ & Hiff & _).
  assert (Hpre : approved_alarm_state
                   (state_after (mkBoot 0 200 false 200) [tick true 0]) = false
                 /\ approved_alarm_state
                      (exec (loop (tick true 1800))
                         (state_after (mkBoot 0 200 false 200) [tick true 0]))
                    = true)
    by (split; reflexivity).
  split; [exact Hpre | exact (proj2 Hiff Hpre)].
Defined.

(** Two high stretches of 1000 ms and 1700 ms. *)
Lemma brief_highs_never_notify_witness :
  let b := mkBoot 0 200 false 200 in
  let l := [tick true 0; tick true 1000; tick false 1700; tick true 1800;
            tick true 3500; tick false 3600] in
  brief_stretches true (boot_raw b) None l = true
  /\ count is_EnteredAlarm (trace_of b l) = 0%nat
  /\ approved_alarm_state (state_after b l) = false.
Proof.
  cbv zeta.
  assert (Hb : brief_stretches true (boot_raw (mkBoot 0 200 false 200)) None
                 [tick true 0; tick true 1000; tick false 1700; tick true 1800;
                  tick true 3500; tick false 3600] = true)
    by reflexivity.
  destruct (brief_highs_never_notify _ _ Hb) as (He & _ & Ha & _).
  split; [exact Hb|]. split; [exact He | exact Ha].
Defined.

(** A rise at 0 held until 1800. *)
Lemma held_high_is_confirmed_once_witness :
  let b := mkBoot 0 200 false 200 in
  let l := [tick true 0; tick true 1000] in
  let i := tick true 1800 in
  (brief_stretches true (boot_raw b) None l = true
   /\ stretch_start true (latest_sample b l)
        (stretch_after true (boot_raw b) None l) i = Some 0
   /\ ton_threshold <= t_ton i - 0 < ulong_modulus)
  /\ count is_EnteredAlarm (trace_of b (l ++ [i])) = 1%nat
  /\ alarm_state (state_after b (l ++ [i])) = Armed.
Proof.
  cbv zeta.
  assert (Hb : brief_stretches true (boot_raw (mkBoot 0 200 false 200)) None
                 [tick true 0; tick true 1000] = true)
    by reflexivity.
  assert (Hs : stretch_start true
                 (latest_sample (mkBoot 0 200 false 200)
                    [tick true 0; tick true 1000])
                 (stretch_after true (boot_raw (mkBoot 0 200 false 200)) None
                    [tick true 0; tick true 1000])
                 (tick true 1800) = Some 0)
    by reflexivity.
  assert (Hr : ton_threshold <= t_ton (tick true 1800) - 0 < ulong_modulus)
    by (vm_compute; split; [discriminate | reflexivity]).
  destruct (held_high_is_confirmed_once _ _ _ _ Hb Hs Hr) as (He & _ & _ & Ha).
  split; [exact (conj Hb (conj Hs Hr))|]. split; [exact He | exact Ha].
Defined.

(** Armed at 1800, then dropouts of 1000 ms and 1500 ms. *)
Lemma brief_lows_never_clear_witness :
  let g := state_after (mkBoot 0 200 false 200) [tick true 0; tick true 1800] in
  let l := [tick false 2000; tick false 3000; tick true 3100;
            tick false 3200; tick false 4700] in
  (alarm_state g = Armed /\ brief_stretches false (last_state g) None l = true)
  /\ count is_ClearedAlarm (trace (loops l) g) = 0%nat
  /\ approved_alarm_state (exec (loops l) g) = true.
Proof.
  cbv zeta.
  assert (Ha : alarm_state
                 (state_after (mkBoot 0 200 false 200)
                    [tick true 0; tick true 1800]) = Armed)
    by reflexivity.
  assert (Hb : brief_stretches false
                 (last_state
                    (state_after (mkBoot 0 200 false 200)
                       [tick true 0; tick true 1800])) None
                 [tick false 2000; tick false 3000; tick true 3100;
                  tick false 3200; tick false 4700] = true)
    by reflexivity.
  destruct (brief_lows_never_clear _ _ Ha Hb) as (Hc & _ & Happ & _).
  split; [exact (conj Ha Hb)|]. split; [exact Hc | exact Happ].
Defined.


(** The first rise after boot, at 700: the marker changes, by a rising edge. *)
Lemma timers_start_only_at_their_edge_witness :
  let g := state_after (mkBoot 0 200 false 200) [] in
  let i := tick true 700 in
  ton_start_marker (exec (loop i) g) <> ton_start_marker g
  /\ (raw i = true /\ last_state g = false /\ approved_alarm_state g = false)
  /\ ton_start_marker (exec (loop i) g) = wrap (t_rise i).
Proof.
  cbv zeta.
  assert (Hne : ton_start_marker
                  (exec (loop (tick true 700))
                     (state_after (mkBoot 0 200 false 200) []))
                <> ton_start_marker (state_after (mkBoot 0 200 false 200) []))
    by (vm_compute; discriminate).
  pose proof (timers_start_only_at_their_edge
                (state_after (mkBoot 0 200 false 200) []) (tick true 700)) as H.
  cbv zeta in H. destruct H as (Hton & _).
  split; [exact Hne | exact (Hton Hne)].
Defined.

(** The pass that clears the alarm leaves the LED HIGH. *)
Lemma led_state_is_a_level_witness :
  let b := mkBoot 0 200 false 200 in
  let l := [tick true 0; tick true 1800; tick false 2000] in
  let i := tick false 3600 in
  approved_alarm_state (state_after b (l ++ [i])) = false
  /\ led_state (state_after b (l ++ [i])) = HIGH.
Proof.
  cbv zeta.
  assert (Ha : approved_alarm_state
                 (state_after (mkBoot 0 200 false 200)
                    ([tick true 0; tick true 1800; tick false 2000]
                     ++ [tick false 3600])) = false)
    by reflexivity.
  destruct (led_state_is_a_level (mkBoot 0 200 false 200)
              [tick true 0; tick true 1800; tick false 2000]
              (tick false 3600)) as (_ & Hh).
  split; [exact Ha | exact (Hh Ha)].
Defined.

(** A total of 199 bytes prints 199 percent at the end, a total of 99 bytes
    divides by zero, a total of 1000 bytes ends at 100 percent. *)
Lemma ota_progress_percent_bounds_witness :
  (0 <= 199 <= 199 /\ 0 <= 50 <= 99 /\ 0 <= 1000 <= 1000)
  /\ ota_progress_percent 199 199 = Some 199
  /\ ota_progress_percent 50 99 = None
  /\ ota_progress_percent 1000 1000 = Some 100.
Proof.
  assert (H1 : 0 <= 199 <= 199) by lia.
  assert (H2 : 0 <= 50 <= 99) by lia.
  assert (H3 : 0 <= 1000 <= 1000) by lia.
  destruct (ota_progress_percent_bounds 50 99 initial_globals H2) as (Hnone & _).
  destruct (ota_progress_percent_bounds 1000 1000 initial_globals H3)
    as (_ & Hsome).
  destruct (Hsome ltac:(lia)) as (p & m & Hp & _ & _ & _ & _ & _ & Hmult).
  destruct (Hmult eq_refl) as (_ & Hend).
  split; [exact (conj H1 (conj H2 H3))|].
  split; [reflexivity|].
  split; [exact (proj1 (Hnone ltac:(lia)))|].
  rewrite Hp, (Hend eq_refl). reflexivity.
Defined.

(** The pass at 2100 of a run that is Clearing, with one reconnection of
    three polls. *)
Lemma loop_pass_accounts_witness :
  let g := state_after (mkBoot 0 200 false 200)
             [tick true 0; tick true 1800; tick false 2000] in
  let i := with_outages [(3%nat, 200)] (tick false 2100) in
  (led_state g = LOW \/ led_state g = HIGH)
  /\ led_writes (trace (loop i) g) = [LOW; LOW; HIGH]
  /\ total_delay (trace (loop i) g) = 2600.
Proof.
  cbv zeta.
  assert (Hlevel : led_state
                     (state_after (mkBoot 0 200 false 200)
                        [tick true 0; tick true 1800; tick false 2000]) = LOW
                   \/ led_state
                        (state_after (mkBoot 0 200 false 200)
                           [tick true 0; tick true 1800; tick false 2000])
                      = HIGH)
    by (right; reflexivity).
  destruct (loop_pass_accounts
              (with_outages [(3%nat, 200)] (tick false 2100))
              (state_after (mkBoot 0 200 false 200)
                 [tick true 0; tick true 1800; tick false 2000]))
    as (Hd & _ & Hled).
  destruct (Hled Hlevel) as (Hw & _).
  split; [exact Hlevel|]. split.
  - rewrite Hw. reflexivity.
  - rewrite Hd. reflexivity.
Defined.
